(** * Deployment validation, execution dispatch and login rate limiting

    A shallow embedding of [backend/api/deployment_helper.py] and of the
    login path of [backend/account_v2/authentication_service.py].

    Python code that calls collaborators (ORM, storage, workflow engine,
    Django auth) is written in a state-and-exception monad; every collaborator
    is a field of a type class, acting on an abstract external state, and
    every call is recorded in a call log. *)

From stdpp Require Import gmap strings list.
From Stdlib Require Import ZArith NArith Ascii String.

Open Scope string_scope.

(** ** Python values, exceptions and effects *)

Module Py.

(** The exception classes the two files raise or meet.  They are all
    subclasses of [Exception]; [OtherException] stands for any other
    subclass of [Exception] raised by a collaborator. *)
Inductive ExnClass :=
| APINotFound
| InactiveAPI
| DoesNotExist
| MultipleObjectsReturned
| ValueError
| TypeError
| IndexError
| NameError
| OtherException (name : string).

(** An exception instance: its class and [str(error)]. *)
Record Exn := mkExn { exn_class : ExnClass; exn_str : string }.

Inductive Outcome (A : Type) :=
| Returned (a : A)
| Raised (e : Exn).
Arguments Returned {A} a.
Arguments Raised {A} e.

(** A computation over a world [W]: it always yields the next world and
    either returns or raises. *)
Definition Eff (W A : Type) : Type := W -> W * Outcome A.

Definition ret {W A} (a : A) : Eff W A := fun w => (w, Returned a).

Definition raise {W A} (e : Exn) : Eff W A := fun w => (w, Raised e).

Definition bind {W A B} (m : Eff W A) (k : A -> Eff W B) : Eff W B :=
  fun w =>
    match m w with
    | (w', Returned a) => k a w'
    | (w', Raised e) => (w', Raised e)
    end.

(** [try: body except Exception as error: handler error]. *)
Definition try_except {W A} (body : Eff W A) (handler : Exn -> Eff W A)
  : Eff W A :=
  fun w =>
    match body w with
    | (w', Returned a) => (w', Returned a)
    | (w', Raised e) => handler e w'
    end.

(** [try: body except ValueError as e: handler e]: other classes go on
    propagating. *)
Definition try_except_ValueError {W A} (body : Eff W A)
    (handler : Exn -> Eff W A) : Eff W A :=
  fun w =>
    match body w with
    | (w', Returned a) => (w', Returned a)
    | (w', Raised e) =>
        match exn_class e with
        | ValueError => handler e w'
        | _ => (w', Raised e)
        end
    end.

(** Text typed by a user, as Python sees it: a sequence of code points. *)
Definition ustr : Type := list N.

(** Python's [a or b] on optional strings: [None] and the empty string are
    falsy; when [a] is falsy the value is [b], whatever it is. *)
Definition truthy (o : option string) : bool :=
  match o with
  | Some (String _ _) => true
  | _ => false
  end.

Definition py_or (a b : option string) : option string :=
  if truthy a then a else b.

End Py.

Import Py.

Declare Scope eff_scope.
Delimit Scope eff_scope with eff.
Notation "'do' x <- m ;; k" := (bind m (fun x => k))
  (at level 10, x name, m at level 99, k at level 200) : eff_scope.
Notation "'exec' m ;; k" := (bind m (fun _ => k))
  (at level 10, m at level 99, k at level 200) : eff_scope.

(** ** [uuid.uuid4] and [str] of a UUID *)

Module Uuid.

(** [UUID(bytes=os.urandom(16), version=4)]: the 128 random bits with the
    RFC 4122 variant and the version number forced. *)
Definition uuid4 (rnd : N) : N :=
  let i := N.modulo rnd (2 ^ 128) in
  let i := N.ldiff i (N.shiftl 0xc000 48) in
  let i := N.lor i (N.shiftl 0x8000 48) in
  let i := N.ldiff i (N.shiftl 0xf000 64) in
  N.lor i (N.shiftl 4 76).

Definition hex_digit (d : N) : ascii :=
  if (d <? 10)%N then ascii_of_N (48 + d) else ascii_of_N (87 + d).

(** The [k] lowest nibbles of [u], most significant first, followed by
    [rest]. *)
Fixpoint hex_field (k : nat) (u : N) (rest : string) : string :=
  match k with
  | O => rest
  | S k' =>
      hex_field k' (N.shiftr u 4) (String (hex_digit (N.land u 15)) rest)
  end.

(** [str(UUID)]: the 32 digits of ['%032x' % u] cut 8-4-4-4-12 and joined
    by dashes; the five groups are the nibbles 31..24, 23..20, 19..16,
    15..12 and 11..0 of [u]. *)
Definition str_uuid (u : N) : string :=
  hex_field 8 (N.shiftr u 96)
    (String "-" (hex_field 4 (N.shiftr u 80)
      (String "-" (hex_field 4 (N.shiftr u 64)
        (String "-" (hex_field 4 (N.shiftr u 48)
          (String "-" (hex_field 12 u EmptyString)))))))).

End Uuid.

(** ** [urllib.parse.urlencode] *)

Module Urllib.

Definition in_range (lo hi : N) (c : ascii) : bool :=
  ((lo <=? N_of_ascii c) && (N_of_ascii c <=? hi))%N.

(** The characters [quote] never escapes: ASCII letters, digits and
    [_.-~]. *)
Definition always_safe (c : ascii) : bool :=
  in_range 65 90 c || in_range 97 122 c || in_range 48 57 c
  || (N_of_ascii c =? 95)%N || (N_of_ascii c =? 46)%N
  || (N_of_ascii c =? 45)%N || (N_of_ascii c =? 126)%N.

Definition HEX (d : N) : ascii :=
  if (d <? 10)%N then ascii_of_N (48 + d) else ascii_of_N (55 + d).

(** [quote_plus] on the UTF-8 bytes of its argument. *)
Fixpoint quote_plus (s : string) : string :=
  match s with
  | EmptyString => EmptyString
  | String c s' =>
      if always_safe c then String c (quote_plus s')
      else if (N_of_ascii c =? 32)%N then String "+" (quote_plus s')
      else String "%" (String (HEX (N.shiftr (N_of_ascii c) 4))
                        (String (HEX (N.land (N_of_ascii c) 15))
                                (quote_plus s')))
  end.

(** [urlencode] of a dict given as its items, in order. *)
Fixpoint urlencode (query : list (string * string)) : string :=
  match query with
  | [] => EmptyString
  | [(k, v)] => quote_plus k ++ "=" ++ quote_plus v
  | (k, v) :: rest => quote_plus k ++ "=" ++ quote_plus v ++ "&" ++ urlencode rest
  end.

End Urllib.

(** ** [api/deployment_helper.py] *)

Module DeploymentHelper.

Record Workflow := { workflow_id : string }.

(** The columns of [APIDeployment] the helper reads. *)
Record APIDeployment := {
  id : string;
  api_name : string;
  api_endpoint : string;
  is_active : bool;
  workflow : Workflow
}.

Record UploadedFile := { file_name : string; file_content : string }.

(** Modelled from the spec: one entry of the engine's result payload, with
    the metadata the engine may attach to it
    ([workflow_manager.workflow.dto] is not among the sources). *)
Record ResultItem := {
  item_output : string;
  item_metadata : option string
}.

(** Modelled from the spec: the [ExecutionResponse] DTO of
    [workflow_manager.workflow.dto], with the attributes
    [execute_workflow] passes or assigns and the result payload.
    Attributes left out of a constructor call default to [None]. *)
Record ExecutionResponse := {
  er_workflow_id : string;
  er_execution_id : string;
  er_execution_status : string;
  er_status_api : option string;
  er_error : option string;
  er_result : list ResultItem
}.

(** [ExecutionStatus.ERROR.value]. *)
Definition ExecutionStatus_ERROR : string := "ERROR".

(** [result.status_api = v]. *)
Definition set_status_api (v : string) (r : ExecutionResponse)
  : ExecutionResponse :=
  {| er_workflow_id := er_workflow_id r;
     er_execution_id := er_execution_id r;
     er_execution_status := er_execution_status r;
     er_status_api := Some v;
     er_error := er_error r;
     er_result := er_result r |}.

(** Modelled from the spec: [ExecutionResponse.remove_result_metadata_keys]
    (not among the sources) strips the metadata fields of the result. *)
Definition remove_result_metadata_keys (r : ExecutionResponse)
  : ExecutionResponse :=
  {| er_workflow_id := er_workflow_id r;
     er_execution_id := er_execution_id r;
     er_execution_status := er_execution_status r;
     er_status_api := er_status_api r;
     er_error := er_error r;
     er_result :=
       map (fun i => {| item_output := item_output i;
                        item_metadata := None |}) (er_result r) |}.

(** Modelled from the spec: the response body, a JSON execution result
    with [execution_id], [status], [status_api] and the result payload or
    [error]. *)
Record ReturnDict := {
  execution_id : string;
  status : string;
  status_api : option string;
  error : option string;
  result : list ResultItem
}.

(** Modelled from the spec: [APIExecutionResponseSerializer(result).data]
    ([api.serializers] is not among the sources) copies the attributes of
    the response into the body. *)
Definition APIExecutionResponseSerializer (r : ExecutionResponse)
  : ReturnDict :=
  {| execution_id := er_execution_id r;
     status := er_execution_status r;
     status_api := er_status_api r;
     error := er_error r;
     result := er_result r |}.

(** The calls the helper makes to its collaborators. *)
Inductive Call :=
| CallValidateApiKey (api_key : string) (instance : APIDeployment)
| CallAddInputFiles (workflow_id execution_id : string)
    (file_objs : list UploadedFile)
| CallExecuteAsync (workflow_id pipeline_id : string)
    (hash_values_of_files : list string) (timeout : Z)
    (execution_id : string)
| CallSendNotification (api : APIDeployment) (result : ExecutionResponse)
| CallDeleteStorageDir (workflow_id execution_id : string).

(** The collaborators, none of which is among the sources: each acts on
    the external state [S] (database, API storage, engine, notification
    sink) and returns or raises. *)
Class Backend (S : Type) := {
  (** [str] of [APINotFound()] and of [InactiveAPI()], set in
      [api.exceptions] *)
  APINotFound_detail : string;
  InactiveAPI_detail : string;
  (** the rows of [APIDeployment.objects] *)
  deployments : S -> list APIDeployment;
  (** [KeyHelper.validate_api_key] *)
  validate_api_key : string -> APIDeployment -> S -> S * Outcome unit;
  (** [SourceConnector.add_input_file_to_api_storage] *)
  add_input_file_to_api_storage :
    string -> string -> list UploadedFile -> S -> S * Outcome (list string);
  (** [WorkflowHelper.execute_workflow_async] *)
  execute_workflow_async :
    string -> string -> list string -> Z -> string ->
    S -> S * Outcome ExecutionResponse;
  (** [cls._send_notification]; it receives the result object the
      dispatch goes on to return and is taken to leave it as it is *)
  send_notification :
    APIDeployment -> ExecutionResponse -> S -> S * Outcome unit;
  (** [DestinationConnector.delete_api_storage_dir] *)
  delete_api_storage_dir : string -> string -> S -> S * Outcome unit;
  (** whether the staging directory of (workflow, execution) exists *)
  api_storage_dir_exists : string -> string -> S -> bool
}.

(** The world the helper runs in: the external state and the log of the
    calls made so far, oldest first. *)
Record World (S : Type) := mkWorld { ext : S; calls : list Call }.
Arguments mkWorld {S} ext calls.
Arguments ext {S} w.
Arguments calls {S} w.

Section Helper.
Context {S : Type} `{Backend S}.

Local Open Scope eff_scope.

(** A call to a collaborator: log it, then let it act. *)
Definition call {A} (c : Call) (op : S -> S * Outcome A)
  : Eff (World S) A :=
  fun w =>
    let '(s', o) := op (ext w) in
    (mkWorld s' (calls w ++ [c]), o).

(** [APIDeployment.objects.get(api_name=api_name)]: the one row with
    that name; a missing name ([None]) matches no row. *)
Definition objects_get (name : option string)
  : Eff (World S) APIDeployment :=
  fun w =>
    match name with
    | None => (w, Raised (mkExn DoesNotExist
                 "APIDeployment matching query does not exist."))
    | Some n =>
        match filter (fun d => api_name d = n) (deployments (ext w)) with
        | [] => (w, Raised (mkExn DoesNotExist
                   "APIDeployment matching query does not exist."))
        | [d] => (w, Returned d)
        | _ => (w, Raised (mkExn MultipleObjectsReturned
                  "get() returned more than one APIDeployment"))
        end
    end.

Definition get_deployment_by_api_name (name : option string)
  : Eff (World S) (option APIDeployment) :=
  fun w =>
    match objects_get name w with
    | (w', Returned api) => (w', Returned (Some api))
    | (w', Raised e) =>
        match exn_class e with
        | DoesNotExist => (w', Returned None)
        | _ => (w', Raised e)
        end
    end.

Definition validate_api (api_deployment : option APIDeployment)
    (api_key : string) : Eff (World S) unit :=
  match api_deployment with
  | None => raise (mkExn APINotFound APINotFound_detail)
  | Some d =>
      if negb (is_active d)
      then raise (mkExn InactiveAPI InactiveAPI_detail)
      else call (CallValidateApiKey api_key d) (validate_api_key api_key d)
  end.

(** [validate_and_process]: [kw_api_name] is [kwargs.get("api_name")],
    [data_api_name] is [request.data.get("api_name")], and [func] is the
    wrapped handler, which receives the deployment as [kwargs["api"]]. *)
Definition validate_and_process {A}
    (func : option APIDeployment -> Eff (World S) A) (api_key : string)
    (kw_api_name data_api_name : option string) : Eff (World S) A :=
  let name := py_or kw_api_name data_api_name in
  do api_deployment <- get_deployment_by_api_name name ;;
  exec validate_api api_deployment api_key ;;
  func api_deployment.

Definition construct_status_endpoint (api_endpoint execution_id : string)
  : string :=
  let query_parameters :=
    Urllib.urlencode [("execution_id", execution_id)] in
  "/" ++ api_endpoint ++ "?" ++ query_parameters.

(** [execute_workflow]; [rnd] is what [os.urandom] hands to
    [uuid.uuid4]. *)
Definition execute_workflow (organization_name : string)
    (api : APIDeployment) (file_objs : list UploadedFile) (timeout : Z)
    (include_metadata : bool) (rnd : N) : Eff (World S) ReturnDict :=
  let workflow_id := workflow_id (workflow api) in
  let pipeline_id := id api in
  let execution_id := Uuid.str_uuid (Uuid.uuid4 rnd) in
  do hash_values_of_files <-
    call (CallAddInputFiles workflow_id execution_id file_objs)
         (add_input_file_to_api_storage workflow_id execution_id
            file_objs) ;;
  do result <-
    try_except
      (do result <-
         call (CallExecuteAsync workflow_id pipeline_id
                 hash_values_of_files timeout execution_id)
              (execute_workflow_async workflow_id pipeline_id
                 hash_values_of_files timeout execution_id) ;;
       let result :=
         set_status_api
           (construct_status_endpoint (api_endpoint api) execution_id)
           result in
       let result :=
         if negb include_metadata
         then remove_result_metadata_keys result else result in
       exec call (CallSendNotification api result)
                 (send_notification api result) ;;
       ret result)
      (fun error =>
         exec call (CallDeleteStorageDir workflow_id execution_id)
                   (delete_api_storage_dir workflow_id execution_id) ;;
         ret {| er_workflow_id := workflow_id;
                er_execution_id := execution_id;
                er_execution_status := ExecutionStatus_ERROR;
                er_status_api := None;
                er_error := Some (exn_str error);
                er_result := [] |}) ;;
  ret (APIExecutionResponseSerializer result).

End Helper.

End DeploymentHelper.

(** ** [account_v2/authentication_service.py]: the login path *)

Module AuthenticationService.

Record User := { user_id : string; is_superuser : bool }.

(** What the login path reads of a request: the method, the two [META]
    entries used for the client address, and the form data. *)
Record Request := {
  method : string;
  HTTP_X_FORWARDED_FOR : option string;
  REMOTE_ADDR : option string;
  POST : gmap string ustr
}.

(** What [render] and [redirect] are given. *)
Inductive HttpResponse :=
| Rendered (template : string) (context : list (string * string))
| Redirected (url : string).

(** A [LoginRequestSerializer] after [is_valid()]: [errors] keeps the
    order of the fields. *)
Record Serializer := {
  is_valid : bool;
  errors : list (string * list string);
  validated_data : gmap string ustr
}.

Inductive Call :=
| CallAuthenticate (request : Request) (username password : option ustr)
| CallLogin (request : Request) (user : User)
| CallSetDefaultUser.

(** Django and the constants of [account_v2.constants] and [settings],
    none of which is among the sources.  [set_default_user] stands for
    [_set_default_user], whose body is ORM calls run under
    [try/except Exception]: it returns [True] or [False] and never
    raises. *)
Class Django (S : Type) := {
  TEMPLATE : string;
  ERROR_PLACE_HOLDER : string;
  USER_LOGIN_ERROR : string;
  WEB_APP_ORIGIN_URL : string;
  LoginRequestSerializer : gmap string ustr -> Serializer;
  authenticate :
    Request -> option ustr -> option ustr -> S -> S * Outcome (option User);
  login : Request -> User -> S -> S * Outcome unit;
  set_default_user : S -> S * bool
}.

(** The service instance in its world: Django's state, the instance's
    [login_attempts] dict (keyed by what [_get_client_ip] returns, which
    is [None] when no address is known) and the log of calls. *)
Record World (S : Type) := mkWorld {
  ext : S;
  login_attempts : gmap (option string) nat;
  calls : list Call
}.
Arguments mkWorld {S} ext login_attempts calls.
Arguments ext {S} w.
Arguments login_attempts {S} w.
Arguments calls {S} w.

(** [__init__], as the second of the two definitions in the class body
    (the one that stays bound) leaves the instance: no attempt recorded. *)
Definition init {S : Type} (s : S) : World S := mkWorld s ∅ [].

(** [s.split(',')[0]]. *)
Fixpoint split_comma_first (s : string) : string :=
  match s with
  | EmptyString => EmptyString
  | String c s' =>
      if Ascii.eqb c "," then EmptyString
      else String c (split_comma_first s')
  end.

Definition _get_client_ip (request : Request) : option string :=
  let x_forwarded_for := HTTP_X_FORWARDED_FOR request in
  if truthy x_forwarded_for
  then option_map split_comma_first x_forwarded_for
  else REMOTE_ADDR request.

(** The character classes of the four [re.search] calls. *)
Definition is_upper (c : N) : bool := ((65 <=? c) && (c <=? 90))%N.
Definition is_lower (c : N) : bool := ((97 <=? c) && (c <=? 122))%N.
Definition is_digit (c : N) : bool := ((48 <=? c) && (c <=? 57))%N.
Definition is_special (c : N) : bool :=
  negb (is_upper c || is_lower c || is_digit c).

Definition _validate_password_complexity (password : option ustr)
  : Outcome unit :=
  match password with
  | None =>
      Raised (mkExn TypeError "object of type 'NoneType' has no len()")
  | Some password =>
      if (List.length password <? 12)%nat then
        Raised (mkExn ValueError
                  "Password must be at least 12 characters long")
      else if negb (existsb is_upper password) then
        Raised (mkExn ValueError "Password must contain uppercase letters")
      else if negb (existsb is_lower password) then
        Raised (mkExn ValueError "Password must contain lowercase letters")
      else if negb (existsb is_digit password) then
        Raised (mkExn ValueError "Password must contain numbers")
      else if negb (existsb is_special password) then
        Raised (mkExn ValueError
                  "Password must contain special characters")
      else Returned tt
  end.

(** [{field: errors[0] for field, errors in items}]: the first error of
    every field, or [None] when some field has an empty list
    ([IndexError]). *)
Fixpoint first_errors (items : list (string * list string))
  : option (list string) :=
  match items with
  | [] => Some []
  | (_, []) :: _ => None
  | (_, e :: _) :: rest =>
      match first_errors rest with
      | Some l => Some (e :: l)
      | None => None
      end
  end.

Section Service.
Context {S : Type} `{Django S}.

Local Open Scope eff_scope.

Definition lift {A} (o : Outcome A) : Eff (World S) A := fun w => (w, o).

Definition call {A} (c : Call) (op : S -> S * Outcome A)
  : Eff (World S) A :=
  fun w =>
    let '(s', o) := op (ext w) in
    (mkWorld s' (login_attempts w) (calls w ++ [c]), o).

Definition _is_rate_limited (ip : option string) : Eff (World S) bool :=
  fun w => (w, Returned (5 <=? default 0 (login_attempts w !! ip))%nat).

Definition _increment_login_attempt (ip : option string)
  : Eff (World S) unit :=
  fun w =>
    (mkWorld (ext w)
       (<[ip := (default 0 (login_attempts w !! ip) + 1)%nat]>
          (login_attempts w))
       (calls w),
     Returned tt).

Definition _reset_login_attempts (ip : option string)
  : Eff (World S) unit :=
  fun w =>
    match login_attempts w !! ip with
    | Some _ =>
        (mkWorld (ext w) (delete ip (login_attempts w)) (calls w),
         Returned tt)
    | None => (w, Returned tt)
    end.

Definition render_login_page (request : Request)
  : Eff (World S) HttpResponse :=
  ret (Rendered TEMPLATE []).

Definition render_login_page_with_error (request : Request)
    (error_message : string) : Eff (World S) HttpResponse :=
  ret (Rendered TEMPLATE [(ERROR_PLACE_HOLDER, error_message)]).

Definition validate_login_credentials (request : Request)
  : Eff (World S) (gmap string ustr) :=
  let serializer := LoginRequestSerializer (POST request) in
  if negb (is_valid serializer) then
    match first_errors (errors serializer) with
    | Some (first_error_message :: _) =>
        raise (mkExn ValueError first_error_message)
    | _ => raise (mkExn IndexError "list index out of range")
    end
  else ret (validated_data serializer).

(** The module never binds the name [UserSessionUtils], so the line
    that sets the organization in the session raises [NameError]. *)
Definition authenticate_and_login (request : Request)
    (username password : option ustr) : Eff (World S) bool :=
  do user <- call (CallAuthenticate request username password)
                  (authenticate request username password) ;;
  match user with
  | Some user =>
      if is_superuser user then ret false
      else
        exec call (CallLogin request user) (login request user) ;;
        ret true
  | None =>
      do created <-
        call CallSetDefaultUser
             (fun s => let '(s', b) := set_default_user s in
                       (s', Returned b)) ;;
      if (created : bool) then
        do user <- call (CallAuthenticate request username password)
                        (authenticate request username password) ;;
        match user with
        | Some user =>
            exec call (CallLogin request user) (login request user) ;;
            raise (mkExn NameError
                     "name 'UserSessionUtils' is not defined")
        | None => ret false
        end
      else ret false
  end.

Definition rate_limit_message : string :=
  "Too many login attempts. Please try again later.".

Definition user_login (request : Request) : Eff (World S) HttpResponse :=
  let ip := _get_client_ip request in
  do limited <- _is_rate_limited ip ;;
  if (limited : bool) then
    render_login_page_with_error request rate_limit_message
  else if decide (method request = "GET") then render_login_page request
  else
    do checked <-
      try_except_ValueError
        (do validated_data <- validate_login_credentials request ;;
         let username := validated_data !! "username" in
         let password := validated_data !! "password" in
         exec lift (_validate_password_complexity password) ;;
         ret (inl (username, password)))
        (fun e =>
           exec _increment_login_attempt ip ;;
           ret (inr (Rendered TEMPLATE
                       [(ERROR_PLACE_HOLDER, exn_str e)]))) ;;
    match checked with
    | inr response => ret response
    | inl (username, password) =>
        do ok <- authenticate_and_login request username password ;;
        if (ok : bool) then
          exec _reset_login_attempts ip ;;
          ret (Redirected WEB_APP_ORIGIN_URL)
        else
          exec _increment_login_attempt ip ;;
          render_login_page_with_error request USER_LOGIN_ERROR
    end.

(** The instance serving requests one after the other: the worlds are
    threaded, the responses (or escaped exceptions) collected. *)
Fixpoint serve (requests : list Request) (w : World S)
  : World S * list (Outcome HttpResponse) :=
  match requests with
  | [] => (w, [])
  | request :: rest =>
      let '(w', o) := user_login request w in
      let '(w'', os) := serve rest w' in
      (w'', o :: os)
  end.

End Service.

End AuthenticationService.

(** ** Scripted collaborators

    Concrete instances of the two interfaces, used to run the code on
    examples: the state holds both the stores and the script of what the
    fallible collaborators answer. *)

Module Sim.

Import DeploymentHelper.

Record Store := {
  rows : list APIDeployment;
  keys : list (string * string);
  dirs : gset (string * string);
  staging_error : option string;
  engine_answer : Outcome ExecutionResponse;
  notify_answer : Outcome unit;
  sent : list (APIDeployment * ExecutionResponse)
}.

Definition with_dirs (d : gset (string * string)) (s : Store) : Store :=
  {| rows := rows s; keys := keys s; dirs := d;
     staging_error := staging_error s; engine_answer := engine_answer s;
     notify_answer := notify_answer s; sent := sent s |}.

Definition with_sent (l : list (APIDeployment * ExecutionResponse))
    (s : Store) : Store :=
  {| rows := rows s; keys := keys s; dirs := dirs s;
     staging_error := staging_error s; engine_answer := engine_answer s;
     notify_answer := notify_answer s; sent := l |}.

(** Staging creates the directory first and then, when the script says
    so, fails while writing the files. *)
#[global] Instance backend : Backend Store := {|
  APINotFound_detail := "API not found";
  InactiveAPI_detail := "API not active";
  deployments := rows;
  validate_api_key key d s :=
    (s, if bool_decide ((id d, key) ∈ keys s) then Returned tt
        else Raised (mkExn (OtherException "UnauthorizedKey")
                           "Unauthorized"));
  add_input_file_to_api_storage wf eid files s :=
    (with_dirs ({[ (wf, eid) ]} ∪ dirs s) s,
     match staging_error s with
     | Some msg => Raised (mkExn (OtherException "OSError") msg)
     | None => Returned (map file_name files)
     end);
  execute_workflow_async wf pipeline hashes timeout eid s :=
    (s, engine_answer s);
  send_notification api r s :=
    match notify_answer s with
    | Returned _ => (with_sent (sent s ++ [(api, r)]) s, Returned tt)
    | Raised e => (s, Raised e)
    end;
  delete_api_storage_dir wf eid s :=
    (with_dirs (dirs s ∖ {[ (wf, eid) ]}) s, Returned tt);
  api_storage_dir_exists wf eid s := bool_decide ((wf, eid) ∈ dirs s)
|}.

Definition invoice_api : APIDeployment :=
  {| id := "api-1"; api_name := "invoice-extractor";
     api_endpoint := "deployment/api/acme/invoice-extractor/";
     is_active := true; workflow := {| workflow_id := "wf-1" |} |}.

Definition two_files : list UploadedFile :=
  [ {| file_name := "a.pdf"; file_content := "A" |};
    {| file_name := "b.pdf"; file_content := "B" |} ].

Definition engine_result : ExecutionResponse :=
  {| er_workflow_id := "wf-1"; er_execution_id := "engine-run-7";
     er_execution_status := "COMPLETED"; er_status_api := None;
     er_error := None;
     er_result := [ {| item_output := "total: 12";
                       item_metadata := Some "pages: 2" |};
                    {| item_output := "total: 40";
                       item_metadata := None |} ] |}.

Definition store (staging : option string)
    (engine : Outcome ExecutionResponse) (notify : Outcome unit) : Store :=
  {| rows := [invoice_api]; keys := [("api-1", "secret")]; dirs := ∅;
     staging_error := staging; engine_answer := engine;
     notify_answer := notify; sent := [] |}.

Definition world (s : Store) : World Store := mkWorld s [].

Definition engine_down : Exn :=
  mkExn (OtherException "ConnectionError") "engine unreachable".

Definition sink_down : Exn :=
  mkExn (OtherException "SMTPException") "mail server down".

(** The four scripts: all well, staging fails, the engine raises, the
    notification raises. *)
Definition all_well : World Store :=
  world (store None (Returned engine_result) (Returned tt)).
Definition staging_fails : World Store :=
  world (store (Some "No space left on device")
               (Returned engine_result) (Returned tt)).
Definition engine_fails : World Store :=
  world (store None (Raised engine_down) (Returned tt)).
Definition notify_fails : World Store :=
  world (store None (Returned engine_result) (Raised sink_down)).

Import AuthenticationService.

Record Accounts := {
  users : list (ustr * ustr * User);
  session : list User
}.

Definition find_user (username password : option ustr) (a : Accounts)
  : option User :=
  match username, password with
  | Some u, Some p =>
      snd <$> head (filter (fun x => x.1 = (u, p)) (users a))
  | _, _ => None
  end.

(** The serializer requires both fields and hands them back as they
    are; no default user can be set up. *)
#[global] Instance django : Django Accounts := {|
  TEMPLATE := "login.html";
  ERROR_PLACE_HOLDER := "error_message";
  USER_LOGIN_ERROR := "Invalid username or password.";
  WEB_APP_ORIGIN_URL := "http://frontend.example";
  LoginRequestSerializer data :=
    match data !! "username", data !! "password" with
    | Some _, Some _ =>
        {| is_valid := true; errors := []; validated_data := data |}
    | None, _ =>
        {| is_valid := false;
           errors := [("username", ["This field is required."])];
           validated_data := ∅ |}
    | _, None =>
        {| is_valid := false;
           errors := [("password", ["This field is required."])];
           validated_data := ∅ |}
    end;
  authenticate request username password a :=
    (a, Returned (find_user username password a));
  login request user a :=
    ({| users := users a; session := session a ++ [user] |}, Returned tt);
  set_default_user a := (a, false)
|}.

(** ["Sup3r$ecretPass"] and ["short"] as code points. *)
Definition strong_password : ustr :=
  [83; 117; 112; 51; 114; 36; 101; 99; 114; 101; 116; 80; 97; 115; 115]%N.
Definition short_password : ustr := [115; 104; 111; 114; 116]%N.
Definition alice_name : ustr := [97; 108; 105; 99; 101]%N.
Definition root_name : ustr := [114; 111; 111; 116]%N.

Definition alice : User := {| user_id := "u-1"; is_superuser := false |}.
Definition root : User := {| user_id := "u-0"; is_superuser := true |}.

Definition accounts : Accounts :=
  {| users := [ (alice_name, strong_password, alice);
                (root_name, strong_password, root) ];
     session := [] |}.

Definition post (ip : string) (username password : ustr) : Request :=
  {| method := "POST"; HTTP_X_FORWARDED_FOR := None;
     REMOTE_ADDR := Some ip;
     POST := <["username" := username]> (<["password" := password]> ∅) |}.

Definition fresh : AuthenticationService.World Accounts :=
  AuthenticationService.init accounts.

(** The instance after five failed logins from 10.0.0.1. *)
Definition five_failures : AuthenticationService.World Accounts :=
  fst (serve (replicate 5 (post "10.0.0.1" alice_name short_password))
             fresh).

End Sim.

(** ** [tenant_account_v2/credentials_view.py] *)

Module CredentialsView.

Definition LF : ascii := "010"%char.
Definition CR : ascii := "013"%char.
Definition NUL : ascii := "000"%char.

(** What text-mode reading does to the bytes of a file (universal
    newlines): ["\r\n"] and then a lone ["\r"] become ["\n"]. *)
Fixpoint universal_newlines (s : string) : string :=
  match s with
  | EmptyString => EmptyString
  | String c s' =>
      if Ascii.eqb c CR then
        match s' with
        | String c' s'' =>
            if Ascii.eqb c' LF then String LF (universal_newlines s'')
            else String LF (universal_newlines s')
        | EmptyString => String LF EmptyString
        end
      else String c (universal_newlines s')
  end.

(** The lines of a text, each with its ["\n"]; the last one may lack it. *)
Fixpoint split_lines (s : string) : list string :=
  match s with
  | EmptyString => []
  | String c s' =>
      if Ascii.eqb c LF then String LF EmptyString :: split_lines s'
      else
        match split_lines s' with
        | [] => [String c EmptyString]
        | line :: rest => String c line :: rest
        end
  end.

(** [file.readlines()] on a file opened with [open(path, 'r')]. *)
Definition readlines (content : string) : list string :=
  split_lines (universal_newlines content).

(** [file.writelines(lines)] on a file opened with [open(path, 'w')],
    where ["\n"] is written as it is (POSIX). *)
Fixpoint writelines (lines : list string) : string :=
  match lines with
  | [] => EmptyString
  | line :: rest => line ++ writelines rest
  end.

(** The [for] loop of [update_env_file]: the first line that starts with
    [start] is replaced by [entry] and the loop stops; [None] when the loop
    ends with [updated] still [False]. *)
Fixpoint replace_first (start entry : string) (lines : list string)
  : option (list string) :=
  match lines with
  | [] => None
  | line :: rest =>
      if String.prefix start line then Some (entry :: rest)
      else option_map (cons line) (replace_first start entry rest)
  end.

(** [f"{key}={value}\n"]. *)
Definition env_entry (key value : string) : string :=
  key ++ "=" ++ value ++ String LF EmptyString.

(** The lines [update_env_file] writes back, from the lines it read. *)
Definition updated_lines (key value : string) (lines : list string)
  : list string :=
  match replace_first (key ++ "=") (env_entry key value) lines with
  | Some lines' => lines'
  | None => (lines ++ [env_entry key value])%list
  end.

(** The file at [ENV_FILE_PATH]: its content when it exists, and the
    error [open] raises for reading or for writing, if any. *)
Record EnvFile := {
  env_content : option string;
  read_error : option Exn;
  write_error : option Exn
}.

Definition with_content (content : string) (f : EnvFile) : EnvFile :=
  {| env_content := Some content;
     read_error := read_error f; write_error := write_error f |}.

(** The members of the organization, as the two views use them. *)
Record OrganizationMember := { member_id : string; role : string }.

(** A [CredentialsSerializer] after [is_valid()]. *)
Record Serializer := {
  is_valid : bool;
  errors : list (string * list string);
  validated_data : gmap string string
}.

Inductive ResponseData :=
| Credentials (username password : string)
| Errors (errors : list (string * list string))
| Message (message : string)
| Error (error : string).

Record Response := { status : nat; data : ResponseData }.

Definition HTTP_200_OK : nat := 200.
Definition HTTP_400_BAD_REQUEST : nat := 400.
Definition HTTP_500_INTERNAL_SERVER_ERROR : nat := 500.

(** The collaborators of the two views, none of which is among the
    sources; [Forbidden_detail] is [str] of [Forbidden()]. *)
Class Tenant (S : Type) := {
  Forbidden_detail : string;
  (** [OrganizationMemberService.get_user_by_id] *)
  get_user_by_id : string -> S -> S * Outcome OrganizationMember;
  (** [AuthenticationController().is_organization_admin] *)
  is_organization_admin : OrganizationMember -> S -> S * Outcome bool;
  (** [CredentialsSerializer(data=request.data)] *)
  CredentialsSerializer : gmap string string -> Serializer
}.

(** What the views read of a request: [request.user.id] and
    [request.data]. *)
Record Request := {
  user_id : string;
  request_data : gmap string string
}.

(** The process environment, the [.env] file and the tenant's state. *)
Record World (S : Type) := mkWorld {
  ext : S;
  environ : gmap string string;
  env_file : EnvFile
}.
Arguments mkWorld {S} ext environ env_file.
Arguments ext {S} w.
Arguments environ {S} w.
Arguments env_file {S} w.

Section Views.
Context {S : Type} `{Tenant S}.

Local Open Scope eff_scope.

Definition tenant {A} (op : S -> S * Outcome A) : Eff (World S) A :=
  fun w =>
    let '(s', o) := op (ext w) in
    (mkWorld s' (environ w) (env_file w), o).

(** [os.environ[key] = value]: the value has to be a [str] without a
    null byte. *)
Definition environ_set (key : string) (value : option string)
  : Eff (World S) unit :=
  fun w =>
    match value with
    | None =>
        (w, Raised (mkExn TypeError "str expected, not NoneType"))
    | Some v =>
        if existsb (Ascii.eqb NUL) (list_ascii_of_string v)
        then (w, Raised (mkExn ValueError "embedded null byte"))
        else (mkWorld (ext w) (<[key := v]> (environ w)) (env_file w),
              Returned tt)
    end.

(** [os.environ.get(key, '')]. *)
Definition environ_get (key : string) (w : World S) : string :=
  default EmptyString (environ w !! key).

Definition update_env_file (key value : string) : Eff (World S) unit :=
  fun w =>
    match env_content (env_file w) with
    | None => (w, Returned tt)
    | Some content =>
        match read_error (env_file w) with
        | Some e => (w, Raised e)
        | None =>
            let lines := updated_lines key value (readlines content) in
            match write_error (env_file w) with
            | Some e => (w, Raised e)
            | None =>
                (mkWorld (ext w) (environ w)
                   (with_content (writelines lines) (env_file w)),
                 Returned tt)
            end
        end
    end.

(** The check both views start with. *)
Definition require_admin (request : Request) : Eff (World S) unit :=
  do org_member <- tenant (get_user_by_id (user_id request)) ;;
  do admin <- tenant (is_organization_admin org_member) ;;
  if (admin : bool) then ret tt
  else raise (mkExn (OtherException "Forbidden") Forbidden_detail).

(** The body of [get_default_credentials]. *)
Definition get_default_credentials (request : Request)
  : Eff (World S) Response :=
  exec require_admin request ;;
  fun w =>
    let username := environ_get "DEFAULT_AUTH_USERNAME" w in
    let password := environ_get "DEFAULT_AUTH_PASSWORD" w in
    (w, Returned {| status := HTTP_200_OK;
                    data := Credentials username password |}).

(** The body of [update_default_credentials]. *)
Definition update_default_credentials (request : Request)
  : Eff (World S) Response :=
  exec require_admin request ;;
  let serializer := CredentialsSerializer (request_data request) in
  if negb (is_valid serializer) then
    ret {| status := HTTP_400_BAD_REQUEST;
           data := Errors (errors serializer) |}
  else
    let username := validated_data serializer !! "username" in
    let password := validated_data serializer !! "password" in
    try_except
      (exec environ_set "DEFAULT_AUTH_USERNAME" username ;;
       exec environ_set "DEFAULT_AUTH_PASSWORD" password ;;
       exec update_env_file "DEFAULT_AUTH_USERNAME"
              (default "None" username) ;;
       exec update_env_file "DEFAULT_AUTH_PASSWORD"
              (default "None" password) ;;
       ret {| status := HTTP_200_OK;
              data := Message "Default credentials updated successfully" |})
      (fun e =>
         ret {| status := HTTP_500_INTERNAL_SERVER_ERROR;
                data := Error "Failed to update default credentials" |}).

End Views.

End CredentialsView.

(** ** Vocabulary for texts and lines *)

Module EnvText.

Import CredentialsView.

(** The character [c] occurs in [s]. *)
Fixpoint contains (c : ascii) (s : string) : bool :=
  match s with
  | EmptyString => false
  | String c' s' => Ascii.eqb c' c || contains c s'
  end.





End EnvText.

(** ** Scripted tenant for the credentials views *)

Module SimTenant.

Import CredentialsView.

(** The tenant's state: the organization member of each user id. *)
Definition Members : Type := list (string * OrganizationMember).

(** Members are looked up by user id, the administrators are the members
    with the role ["admin"], and the serializer requires both fields and
    hands them back as they are. *)
#[global] Instance tenant : Tenant Members := {|
  Forbidden_detail := "You do not have permission to perform this action.";
  get_user_by_id uid members :=
    (members,
     match List.find (fun m => String.eqb (fst m) uid) members with
     | Some m => Returned (snd m)
     | None => Raised (mkExn DoesNotExist
                         "OrganizationMember matching query does not exist.")
     end);
  is_organization_admin member members :=
    (members, Returned (String.eqb (role member) "admin"));
  CredentialsSerializer data :=
    match data !! "username", data !! "password" with
    | Some _, Some _ =>
        {| is_valid := true; errors := []; validated_data := data |}
    | None, _ =>
        {| is_valid := false;
           errors := [("username", ["This field is required."])];
           validated_data := ∅ |}
    | _, None =>
        {| is_valid := false;
           errors := [("password", ["This field is required."])];
           validated_data := ∅ |}
    end
|}.

Definition members : Members :=
  [ ("u-1", {| member_id := "m-1"; role := "admin" |});
    ("u-2", {| member_id := "m-2"; role := "user" |}) ].

Definition file (content : option string) (write : option Exn) : EnvFile :=
  {| env_content := content; read_error := None; write_error := write |}.

Definition read_only : Exn :=
  mkExn (OtherException "PermissionError") "[Errno 13] Permission denied".

Definition world (content : option string) (write : option Exn)
  : World Members :=
  mkWorld members ∅ (file content write).

Definition finished : string :=
  "DEBUG=1" ++ String LF ("DEFAULT_AUTH_USERNAME=old" ++ String LF
    ("WORKERS=4" ++ String LF EmptyString)).

Definition credentials (username password : string) : gmap string string :=
  <["username" := username]> (<["password" := password]> ∅).

Definition admin_post (username password : string) : Request :=
  {| user_id := "u-1"; request_data := credentials username password |}.

Definition user_post (username password : string) : Request :=
  {| user_id := "u-2"; request_data := credentials username password |}.

End SimTenant.

(** ** [api/deployment_helper.py]: parameters and API keys *)

Module DeploymentKeys.

Import DeploymentHelper.

(** [validate_parameters]: [kw_api_name] is [kwargs.get("api_name")] and
    [data_api_name] is [request.data.get("api_name")]. *)
Definition validate_parameters {W} (kw_api_name data_api_name : option string)
  : Eff W unit :=
  let api_name := py_or kw_api_name data_api_name in
  if negb (truthy api_name)
  then raise (mkExn (OtherException "InvalidAPIRequest")
                "Missing params api_name")
  else ret tt.

Record APIKey := { api_key : string; api : APIDeployment }.

Inductive Call :=
| CallCreateApiKey (api_deployment : APIDeployment)
| CallDelete (api_deployment : APIDeployment).

(** [KeyHelper.create_api_key] and [api_deployment.delete()], neither of
    which is among the sources; [ApiKeyCreateException_detail] is [str] of
    [ApiKeyCreateException()]. *)
Class KeyStore (S : Type) := {
  ApiKeyCreateException_detail : string;
  key_helper_create_api_key : APIDeployment -> S -> S * Outcome APIKey;
  delete : APIDeployment -> S -> S * Outcome unit
}.

Record World (S : Type) := mkWorld { ext : S; calls : list Call }.
Arguments mkWorld {S} ext calls.
Arguments ext {S} w.
Arguments calls {S} w.

Section Keys.
Context {S : Type} `{KeyStore S}.

Local Open Scope eff_scope.

Definition call {A} (c : Call) (op : S -> S * Outcome A)
  : Eff (World S) A :=
  fun w =>
    let '(s', o) := op (ext w) in
    (mkWorld s' (calls w ++ [c]), o).

(** [create_api_key]; [api_deployment] is [serializer.instance]. *)
Definition create_api_key (api_deployment : APIDeployment)
  : Eff (World S) APIKey :=
  try_except
    (call (CallCreateApiKey api_deployment)
          (key_helper_create_api_key api_deployment))
    (fun error =>
       exec call (CallDelete api_deployment) (delete api_deployment) ;;
       raise (mkExn (OtherException "ApiKeyCreateException")
                ApiKeyCreateException_detail)).

End Keys.

End DeploymentKeys.

(** ** Reading a quoted query value back *)

Module Unquote.

Definition unhex (c : ascii) : N :=
  let n := N_of_ascii c in
  if (n <? 58)%N then n - 48 else n - 55.

(** The inverse of [Urllib.quote_plus], as [urllib.parse.unquote_plus]
    reads what [quote_plus] wrote. *)
Fixpoint unquote_plus (s : string) : string :=
  match s with
  | EmptyString => EmptyString
  | String c rest =>
      if Ascii.eqb c "%" then
        match rest with
        | String h (String l rest') =>
            String (ascii_of_N (16 * unhex h + unhex l)) (unquote_plus rest')
        | _ => String c (unquote_plus rest)
        end
      else if Ascii.eqb c "+" then String " " (unquote_plus rest)
      else String c (unquote_plus rest)
  end.

End Unquote.

(** ** Vocabulary for the login path *)

Module LoginText.

Import AuthenticationService.

(** The request as a proxy would present it with the header
    [X-Forwarded-For: header]. *)
Definition forwarded (header : string) (request : Request) : Request :=
  {| method := method request;
     HTTP_X_FORWARDED_FOR := Some header;
     REMOTE_ADDR := REMOTE_ADDR request;
     POST := POST request |}.

(** A header value of [n] letters. *)
Fixpoint letters (n : nat) : string :=
  match n with
  | O => EmptyString
  | Datatypes.S n' => String "x" (letters n')
  end.

(** The length of the longest address among the keys. *)
Fixpoint longest (keys : list (option string)) : nat :=
  match keys with
  | [] => 0
  | None :: rest => longest rest
  | Some address :: rest => Nat.max (String.length address) (longest rest)
  end.

(** No counter is above the limit. *)
Definition within_limit {S : Type} (w : World S) : Prop :=
  forall ip, default 0 (login_attempts w !! ip) <= 5.

End LoginText.

(** ** Scripted Django with a default user *)

Module SimDefault.

Import AuthenticationService.

(** The only account is the default user, which exists once
    [_set_default_user] has run; [authenticate] knows it by its
    credentials. *)
Record Setup := {
  default_credentials : ustr * ustr;
  default_user : User;
  installed : bool;
  session : list User
}.

#[export] Instance django : Django Setup := {|
  TEMPLATE := "login.html";
  ERROR_PLACE_HOLDER := "error_message";
  USER_LOGIN_ERROR := "Invalid username or password.";
  WEB_APP_ORIGIN_URL := "http://frontend.example";
  LoginRequestSerializer data :=
    {| is_valid := true; errors := []; validated_data := data |};
  authenticate request username password st :=
    (st,
     Returned
       (if installed st
        then match username, password with
             | Some u, Some p =>
                 if decide ((u, p) = default_credentials st)
                 then Some (default_user st) else None
             | _, _ => None
             end
        else None));
  login request user st :=
    ({| default_credentials := default_credentials st;
        default_user := default_user st;
        installed := installed st;
        session := session st ++ [user] |}, Returned tt);
  set_default_user st :=
    ({| default_credentials := default_credentials st;
        default_user := default_user st;
        installed := true;
        session := session st |}, true)
|}.

(** The default user is a superuser with the credentials of [root]. *)
Definition setup : Setup :=
  {| default_credentials := (Sim.root_name, Sim.strong_password);
     default_user := Sim.root;
     installed := false;
     session := [] |}.

Definition fresh : World Setup := init setup.

End SimDefault.

(** ** [account_v2/authentication_service.py]: the default user *)

Module DefaultUser.

(** The attributes of a [User] the default-user code reads or assigns. *)
Record User := {
  pk : string;
  user_id : string;
  username : string;
  email : string;
  password : string
}.

Record Organization := { organization_id : string }.

Record OrganizationMember := {
  member_id : string;
  user : User;
  role : string
}.

Inductive Call :=
| CallSetOrganizationIdentifier (name : string)
| CallGetOrganization
| CallGetMembersByRole (role : string)
| CallGetMembers
| CallSetMemberRole (member_id role : string)
| CallGetOrCreate (username : string)
| CallMakePassword (raw : string)
| CallSave (user : User).

(** [UserContext], [OrganizationMemberService], the [User] manager and
    [make_password], with the constants of [DefaultOrg] and
    [UserRole.ADMIN.value]; none of them is among the sources. *)
Class Accounts (S : Type) := {
  ORGANIZATION_NAME : string;
  MOCK_USER : string;
  MOCK_USER_EMAIL : string;
  ADMIN : string;
  set_organization_identifier : string -> S -> S * Outcome unit;
  get_organization : S -> S * Outcome (option Organization);
  get_members_by_role : string -> S -> S * Outcome (list OrganizationMember);
  get_members : S -> S * Outcome (list OrganizationMember);
  set_member_role : string -> string -> S -> S * Outcome unit;
  get_or_create : string -> S -> S * Outcome (User * bool);
  make_password : string -> S -> S * Outcome string;
  save : User -> S -> S * Outcome unit
}.

(** The accounts, the environment of the process, the random source read
    by [uuid.uuid4] with the number of draws made, and the call log. *)
Record World (S : Type) := mkWorld {
  ext : S;
  environ : gmap string string;
  urandom : nat -> N;
  drawn : nat;
  calls : list Call
}.
Arguments mkWorld {S} ext environ urandom drawn calls.
Arguments ext {S} w.
Arguments environ {S} w.
Arguments urandom {S} w.
Arguments drawn {S} w.
Arguments calls {S} w.

Definition with_username (v : string) (u : User) : User :=
  {| pk := pk u; user_id := user_id u; username := v;
     email := email u; password := password u |}.
Definition with_email (v : string) (u : User) : User :=
  {| pk := pk u; user_id := user_id u; username := username u;
     email := v; password := password u |}.
Definition with_password (v : string) (u : User) : User :=
  {| pk := pk u; user_id := user_id u; username := username u;
     email := email u; password := v |}.
Definition with_user_id (v : string) (u : User) : User :=
  {| pk := pk u; user_id := v; username := username u;
     email := email u; password := password u |}.

(** [UUID.hex] and [UUID.hex[:8]]. *)
Definition hex (u : N) : string := Uuid.hex_field 32 u EmptyString.
Definition hex8 (u : N) : string :=
  Uuid.hex_field 8 (N.shiftr u 96) EmptyString.

Section Service.
Context {S : Type} `{Accounts S}.

Local Open Scope eff_scope.

Definition call {A} (c : Call) (op : S -> S * Outcome A)
  : Eff (World S) A :=
  fun w =>
    let '(s', o) := op (ext w) in
    (mkWorld s' (environ w) (urandom w) (drawn w) (calls w ++ [c]), o).

(** [uuid.uuid4()]. *)
Definition uuid4 : Eff (World S) N :=
  fun w =>
    (mkWorld (ext w) (environ w) (urandom w) (Datatypes.S (drawn w))
       (calls w),
     Returned (Uuid.uuid4 (urandom w (drawn w)))).

(** [os.environ.get(key)]. *)
Definition environ_get (key : string) : Eff (World S) (option string) :=
  fun w => (w, Returned (environ w !! key)).

Definition _create_mock_user : Eff (World S) User :=
  do u1 <- uuid4 ;;
  let mock_username := "mock_" ++ hex8 u1 in
  do u2 <- uuid4 ;;
  let mock_password := hex u2 in
  do found <- call (CallGetOrCreate mock_username)
                   (get_or_create mock_username) ;;
  let '(user, created) := found in
  if (created : bool) then
    do u3 <- uuid4 ;;
    let user := with_user_id (Uuid.str_uuid u3) user in
    let user := with_email (mock_username ++ "@example.com") user in
    do hashed <- call (CallMakePassword mock_password)
                      (make_password mock_password) ;;
    let user := with_password hashed user in
    exec call (CallSave user) (save user) ;;
    ret user
  else ret user.

Definition _get_admin_user : Eff (World S) (option User) :=
  do admin_members <- call (CallGetMembersByRole ADMIN)
                           (get_members_by_role ADMIN) ;;
  ret match admin_members with
      | first :: _ => Some (user first)
      | [] => None
      end.

Definition _promote_first_member_to_admin
  : Eff (World S) (option OrganizationMember) :=
  do members <- call CallGetMembers get_members ;;
  match members with
  | [] => ret None
  | first_member :: _ =>
      exec call (CallSetMemberRole (member_id first_member) ADMIN)
                (set_member_role (member_id first_member) ADMIN) ;;
      ret (Some first_member)
  end.

Definition _get_or_create_organization_user : Eff (World S) User :=
  do admin_user <- _get_admin_user ;;
  match admin_user with
  | Some admin_user => ret admin_user
  | None =>
      do member <- _promote_first_member_to_admin ;;
      match member with
      | Some member => ret (user member)
      | None => _create_mock_user
      end
  end.

Definition _get_or_create_user (organization : option Organization)
  : Eff (World S) User :=
  match organization with
  | None => _create_mock_user
  | Some _ => _get_or_create_organization_user
  end.

Definition _update_user_credentials (user : User) : Eff (World S) unit :=
  if String.eqb (username user) MOCK_USER
     || String.eqb (email user) MOCK_USER_EMAIL
  then
    do u1 <- uuid4 ;;
    let new_username := "user_" ++ hex8 u1 in
    do u2 <- uuid4 ;;
    let new_password := hex u2 in
    let user := with_username new_username user in
    let user := with_email (new_username ++ "@example.com") user in
    do hashed <- call (CallMakePassword new_password)
                      (make_password new_password) ;;
    let user := with_password hashed user in
    call (CallSave user) (save user)
  else ret tt.

(** [user.set_password(raw)] is Django's
    [self.password = make_password(raw)]. *)
Definition _set_default_user : Eff (World S) bool :=
  try_except
    (exec call (CallSetOrganizationIdentifier ORGANIZATION_NAME)
               (set_organization_identifier ORGANIZATION_NAME) ;;
     do organization <- call CallGetOrganization get_organization ;;
     do user <- _get_or_create_user organization ;;
     do default_username <- environ_get "DEFAULT_AUTH_USERNAME" ;;
     do default_password <- environ_get "DEFAULT_AUTH_PASSWORD" ;;
     if truthy default_username && truthy default_password then
       let user := with_username (default EmptyString default_username)
                     user in
       do hashed <- call (CallMakePassword
                            (default EmptyString default_password))
                         (make_password
                            (default EmptyString default_password)) ;;
       let user := with_password hashed user in
       exec call (CallSave user) (save user) ;;
       ret true
     else
       exec _update_user_credentials user ;;
       ret true)
    (fun e => ret false).

End Service.

End DefaultUser.

(** ** Scripted accounts for the default user *)

Module SimAccounts.

Import DefaultUser.

(** The organization's members in the order of the queries, and the
    users saved so far; hashing a password prefixes it. *)
Record Directory := {
  organization : option Organization;
  members : list OrganizationMember;
  saved : list User
}.

Definition promote (id : string) (m : OrganizationMember)
  : OrganizationMember :=
  if String.eqb (member_id m) id
  then {| member_id := member_id m; user := user m; role := "admin" |}
  else m.

#[global] Instance accounts : Accounts Directory := {|
  ORGANIZATION_NAME := "mock_org";
  MOCK_USER := "unstract";
  MOCK_USER_EMAIL := "email@mock.com";
  ADMIN := "admin";
  set_organization_identifier name d := (d, Returned tt);
  get_organization d := (d, Returned (organization d));
  get_members_by_role r d :=
    (d, Returned (List.filter (fun m => String.eqb (role m) r) (members d)));
  get_members d := (d, Returned (members d));
  set_member_role id r d :=
    ({| organization := organization d;
        members := map (promote id) (members d);
        saved := saved d |}, Returned tt);
  get_or_create name d :=
    (d, Returned ({| pk := "new"; user_id := EmptyString; username := name;
                     email := EmptyString; password := EmptyString |},
                  true));
  make_password raw d := (d, Returned ("pbkdf2$" ++ raw));
  save u d :=
    ({| organization := organization d; members := members d;
        saved := saved d ++ [u] |}, Returned tt)
|}.

Definition carol : User :=
  {| pk := "7"; user_id := "u-7"; username := "carol";
     email := "carol@example.com"; password := "pbkdf2$old" |}.
Definition dave : User :=
  {| pk := "8"; user_id := "u-8"; username := "dave";
     email := "dave@example.com"; password := "pbkdf2$older" |}.

Definition directory (carol_role : string) : Directory :=
  {| organization := Some {| organization_id := "mock_org" |};
     members := [ {| member_id := "m-8"; user := dave; role := "user" |};
                  {| member_id := "m-7"; user := carol;
                     role := carol_role |} ];
     saved := [] |}.

Definition world (carol_role : string) (env : gmap string string)
  : World Directory :=
  mkWorld (directory carol_role) env (fun n => N.of_nat n) 0 [].

Definition default_env : gmap string string :=
  <["DEFAULT_AUTH_USERNAME" := "admin"]>
    (<["DEFAULT_AUTH_PASSWORD" := "Adm1n!password"]> ∅).

End SimAccounts.

(** ** Vocabulary of the statements *)

Module Spec.

Import DeploymentHelper.

Section Dispatch.
Context {S : Type} `{Backend S}.

(** [str(uuid.uuid4())] for the random bits [rnd]. *)
Definition generated_execution_id (rnd : N) : string :=
  Uuid.str_uuid (Uuid.uuid4 rnd).

(** The engine's result after the two post-processing steps of the
    [try] block. *)
Definition post_processed (api : APIDeployment) (include_metadata : bool)
    (rnd : N) (r : ExecutionResponse) : ExecutionResponse :=
  let r :=
    set_status_api
      (construct_status_endpoint (api_endpoint api)
         (generated_execution_id rnd)) r in
  if negb include_metadata then remove_result_metadata_keys r else r.

(** The body made from what the [except] block builds. *)
Definition error_body (rnd : N) (e : Exn) : ReturnDict :=
  {| execution_id := generated_execution_id rnd;
     status := ExecutionStatus_ERROR;
     status_api := None; error := Some (exn_str e); result := [] |}.

(** The calls a dispatch added to the log. *)
Definition new_calls (before after : World S) : list Call :=
  drop (List.length (calls before)) (calls after).

(** "dispatch returns a result with a non-empty [execution_id]". *)
Definition dispatch_returns_with_id (org : string) (api : APIDeployment)
    (files : list UploadedFile) (timeout : Z) (include_metadata : bool)
    (rnd : N) (w : World S) : Prop :=
  exists w' body,
    execute_workflow org api files timeout include_metadata rnd w
      = (w', Returned body)
    /\ execution_id body <> EmptyString.

(** "staging raises". *)
Definition staging_raises (api : APIDeployment)
    (files : list UploadedFile) (rnd : N) (w : World S) : Prop :=
  exists s e,
    add_input_file_to_api_storage (workflow_id (workflow api))
      (generated_execution_id rnd) files (ext w) = (s, Raised e).

(** "after the dispatch the staging directory of (workflow, execution)
    does not exist". *)
Definition staging_dir_removed (org : string) (api : APIDeployment)
    (files : list UploadedFile) (timeout : Z) (include_metadata : bool)
    (rnd : N) (w : World S) : Prop :=
  api_storage_dir_exists (workflow_id (workflow api))
    (generated_execution_id rnd)
    (ext (execute_workflow org api files timeout include_metadata
            rnd w).1) = false.

(** "a notification for the deployment and a result was sent". *)
Definition notification_sent (org : string) (api : APIDeployment)
    (files : list UploadedFile) (timeout : Z) (include_metadata : bool)
    (rnd : N) (w : World S) : Prop :=
  exists r,
    CallSendNotification api r ∈
      new_calls w
        (execute_workflow org api files timeout include_metadata
           rnd w).1.

(** The contract of [delete_api_storage_dir]: it does not raise, and
    the directory is gone when it returns. *)
Definition delete_removes_dir : Prop :=
  forall wf eid s,
    exists s',
      delete_api_storage_dir wf eid s = (s', Returned tt)
      /\ api_storage_dir_exists wf eid s' = false.

End Dispatch.

Import AuthenticationService.

(** "shorter than 12 characters or lacks an uppercase letter, a lowercase
    letter, a digit, or a special character". *)
Definition weak_password (password : ustr) : Prop :=
  List.length password < 12
  \/ (forall c, c ∈ password -> is_upper c = false)
  \/ (forall c, c ∈ password -> is_lower c = false)
  \/ (forall c, c ∈ password -> is_digit c = false)
  \/ (forall c, c ∈ password -> is_special c = false).

Section Login.
Context {S : Type} `{Django S}.

Definition attempts (ip : option string)
    (w : AuthenticationService.World S) : nat :=
  default 0 (login_attempts w !! ip).

Definition rate_limit_page : HttpResponse :=
  Rendered TEMPLATE [(ERROR_PLACE_HOLDER, rate_limit_message)].

(** The call is an authentication attempt made for a request of the
    client [ip]. *)
Definition authenticates_for (ip : option string)
    (c : AuthenticationService.Call) : Prop :=
  match c with
  | CallAuthenticate request _ _ => _get_client_ip request = ip
  | _ => False
  end.

(** "the error page is rendered and the failed-attempt counter of the
    client goes up by one, with no call made". *)
Definition rejected_and_counted (request : Request)
    (w : AuthenticationService.World S) : Prop :=
  exists w' message,
    user_login request w
      = (w', Returned (Rendered TEMPLATE
                         [(ERROR_PLACE_HOLDER, message)]))
    /\ attempts (_get_client_ip request) w'
       = attempts (_get_client_ip request) w + 1
    /\ AuthenticationService.calls w' = AuthenticationService.calls w
    /\ AuthenticationService.ext w' = AuthenticationService.ext w.

(** From [w] to [w'] the counter of [ip] was left alone and no
    authentication was attempted for [ip]. *)
Definition untouched (ip : option string)
    (w w' : AuthenticationService.World S) : Prop :=
  login_attempts w' !! ip = login_attempts w !! ip
  /\ exists new,
       AuthenticationService.calls w'
         = (AuthenticationService.calls w ++ new)%list
       /\ Forall (fun c => ~ authenticates_for ip c) new.

End Login.

End Spec.

Import DeploymentHelper Spec.

(** * Properties *)

(** ** UUID strings *)

Example str_uuid_of_zero_bits :
  Uuid.str_uuid (Uuid.uuid4 0) = "00000000-0000-4000-8000-000000000000".
Proof. vm_compute. reflexivity. Qed.

Example str_uuid_of_one_bits :
  Uuid.str_uuid (Uuid.uuid4 (2 ^ 128 - 1))
  = "ffffffff-ffff-4fff-bfff-ffffffffffff".
Proof. vm_compute. reflexivity. Qed.

Example urlencode_escapes :
  Urllib.urlencode [("execution_id", "a b/c~")] = "execution_id=a+b%2Fc~".
Proof. vm_compute. reflexivity. Qed.

Lemma hex_field_length k u rest :
  String.length (Uuid.hex_field k u rest) = k + String.length rest.
Proof.
  revert u rest. induction k as [|k IH]; intros u rest; simpl; [done|].
  rewrite IH. simpl. lia.
Qed.

Lemma generated_execution_id_length rnd :
  String.length (generated_execution_id rnd) = 36.
Proof.
  unfold generated_execution_id, Uuid.str_uuid.
  repeat (rewrite hex_field_length; simpl String.length). reflexivity.
Qed.

Lemma generated_execution_id_nonempty rnd :
  generated_execution_id rnd <> EmptyString.
Proof.
  intros Heq. pose proof (generated_execution_id_length rnd) as Hlen.
  rewrite Heq in Hlen. discriminate.
Qed.

Lemma hex_digit_safe u :
  Urllib.always_safe (Uuid.hex_digit (N.land u 15)) = true.
Proof.
  assert (N.land u 15 < 16)%N as Hlt.
  { change 15%N with (N.ones 4). rewrite N.land_ones.
    apply N.mod_lt. discriminate. }
  destruct (N.land u 15) as [|p]; [reflexivity|].
  do 4 (destruct p as [p|p|]; try reflexivity; try lia).
Qed.

Lemma quote_plus_hex_field k u rest :
  Urllib.quote_plus rest = rest ->
  Urllib.quote_plus (Uuid.hex_field k u rest) = Uuid.hex_field k u rest.
Proof.
  revert u rest. induction k as [|k IH]; intros u rest Hrest; simpl; [done|].
  apply IH. simpl. rewrite hex_digit_safe. by rewrite Hrest.
Qed.

Lemma quote_plus_dash s :
  Urllib.quote_plus s = s ->
  Urllib.quote_plus (String "-" s) = String "-" s.
Proof. intros Hs. simpl. by rewrite Hs. Qed.

Lemma quote_plus_generated_execution_id rnd :
  Urllib.quote_plus (generated_execution_id rnd) = generated_execution_id rnd.
Proof.
  unfold generated_execution_id, Uuid.str_uuid.
  repeat (first [apply quote_plus_hex_field | apply quote_plus_dash]).
  reflexivity.
Qed.

Lemma construct_status_endpoint_generated endpoint rnd :
  construct_status_endpoint endpoint (generated_execution_id rnd)
  = "/" ++ endpoint ++ "?execution_id=" ++ generated_execution_id rnd.
Proof.
  unfold construct_status_endpoint, Urllib.urlencode.
  rewrite quote_plus_generated_execution_id. reflexivity.
Qed.

(** ** The four ways through [execute_workflow] *)

Section DispatchCases.
Context {S : Type} `{Backend S}.
Variables (org : string) (api : APIDeployment) (files : list UploadedFile).
Variables (timeout : Z) (include_metadata : bool) (rnd : N).
Variable w : World S.

Local Abbreviation wf := (workflow_id (workflow api)).
Local Abbreviation eid := (generated_execution_id rnd).
Local Abbreviation staged := (CallAddInputFiles wf eid files).
Local Abbreviation deleted := (CallDeleteStorageDir wf eid).

Ltac step_through :=
  unfold execute_workflow, bind, try_except, call, ret;
  change (Uuid.str_uuid (Uuid.uuid4 rnd)) with eid; cbn [ext calls];
  repeat match goal with
         | Heq : ?op = (_, _) |- context [?op] => rewrite Heq; cbn [ext calls]
         end;
  rewrite <- ?(assoc_L (++)).

Lemma execute_workflow_staging_raises s1 e :
  add_input_file_to_api_storage wf eid files (ext w) = (s1, Raised e) ->
  execute_workflow org api files timeout include_metadata rnd w
  = (mkWorld s1 (calls w ++ [staged]), Raised e).
Proof. intros Hstage. step_through. reflexivity. Qed.

Lemma execute_workflow_engine_raises s1 hashes s2 e s3 o :
  add_input_file_to_api_storage wf eid files (ext w)
    = (s1, Returned hashes) ->
  execute_workflow_async wf (id api) hashes timeout eid s1
    = (s2, Raised e) ->
  delete_api_storage_dir wf eid s2 = (s3, o) ->
  execute_workflow org api files timeout include_metadata rnd w
  = (mkWorld s3
       (calls w ++ [staged; CallExecuteAsync wf (id api) hashes timeout eid;
                    deleted]),
     match o with
     | Returned _ => Returned (error_body rnd e)
     | Raised e' => Raised e'
     end).
Proof.
  intros Hstage Hengine Hdelete. step_through.
  destruct o; reflexivity.
Qed.

Lemma execute_workflow_notify_raises s1 hashes s2 r s3 e s4 o :
  add_input_file_to_api_storage wf eid files (ext w)
    = (s1, Returned hashes) ->
  execute_workflow_async wf (id api) hashes timeout eid s1
    = (s2, Returned r) ->
  send_notification api (post_processed api include_metadata rnd r) s2
    = (s3, Raised e) ->
  delete_api_storage_dir wf eid s3 = (s4, o) ->
  execute_workflow org api files timeout include_metadata rnd w
  = (mkWorld s4
       (calls w ++ [staged; CallExecuteAsync wf (id api) hashes timeout eid;
                    CallSendNotification api
                      (post_processed api include_metadata rnd r);
                    deleted]),
     match o with
     | Returned _ => Returned (error_body rnd e)
     | Raised e' => Raised e'
     end).
Proof.
  intros Hstage Hengine Hnotify Hdelete. unfold post_processed in *.
  step_through. destruct o; reflexivity.
Qed.

Lemma execute_workflow_success s1 hashes s2 r s3 u :
  add_input_file_to_api_storage wf eid files (ext w)
    = (s1, Returned hashes) ->
  execute_workflow_async wf (id api) hashes timeout eid s1
    = (s2, Returned r) ->
  send_notification api (post_processed api include_metadata rnd r) s2
    = (s3, Returned u) ->
  execute_workflow org api files timeout include_metadata rnd w
  = (mkWorld s3
       (calls w ++ [staged; CallExecuteAsync wf (id api) hashes timeout eid;
                    CallSendNotification api
                      (post_processed api include_metadata rnd r)]),
     Returned (APIExecutionResponseSerializer
                 (post_processed api include_metadata rnd r))).
Proof.
  intros Hstage Hengine Hnotify. unfold post_processed in *.
  step_through. reflexivity.
Qed.

End DispatchCases.

(** ** Deployment validation *)

Lemma filter_no_match {A} (P : A -> Prop) `{forall x, Decision (P x)}
    (l : list A) :
  (forall x, x ∈ l -> ~ P x) -> filter P l = [].
Proof.
  induction l as [|x l IH]; intros Hno; [reflexivity|].
  rewrite filter_cons. destruct (decide (P x)) as [HP|_].
  - exfalso. apply (Hno x); [left | exact HP].
  - apply IH. intros y Hy. apply Hno. by right.
Qed.

Section Validation.
Context {S : Type} `{Backend S}.

Lemma get_deployment_unknown (name : option string) (w : World S) :
  (forall d, d ∈ deployments (ext w) -> Some (api_name d) <> name) ->
  get_deployment_by_api_name name w = (w, Returned None).
Proof.
  intros Hnone. unfold get_deployment_by_api_name, objects_get.
  destruct name as [n|]; [|reflexivity].
  rewrite filter_no_match; [reflexivity|].
  intros d Hd Heq. apply (Hnone d Hd). by rewrite Heq.
Qed.

(** C3: when no deployment row carries the requested name, the lookup
    yields [None], [validate_api] raises [APINotFound], and the whole
    [validate_and_process] raises it with the world untouched: no key
    check, no handler call, whatever the handler and the key are. *)
Theorem validate_unknown_api_name_not_found {A}
    (func : option APIDeployment -> Eff (World S) A) (api_key : string)
    (kw_api_name data_api_name : option string) (w : World S) :
  (forall d, d ∈ deployments (ext w) ->
             Some (api_name d) <> py_or kw_api_name data_api_name) ->
  get_deployment_by_api_name (py_or kw_api_name data_api_name) w
    = (w, Returned None)
  /\ validate_api None api_key w
     = (w, Raised (mkExn APINotFound APINotFound_detail))
  /\ validate_and_process func api_key kw_api_name data_api_name w
     = (w, Raised (mkExn APINotFound APINotFound_detail)).
Proof.
  intros Hnone. pose proof (get_deployment_unknown _ w Hnone) as Hget.
  split; [exact Hget|]. split; [reflexivity|].
  unfold validate_and_process, bind. rewrite Hget. reflexivity.
Qed.

(** C4: for a deployment whose [is_active] is false, [validate_api] raises
    [InactiveAPI] for every key and leaves the world as it was, so the log
    gains no [CallValidateApiKey]; the same holds of [validate_and_process]
    once the lookup has found that deployment. *)
Theorem validate_inactive_before_key {A}
    (func : option APIDeployment -> Eff (World S) A) (d : APIDeployment)
    (api_key : string) (kw_api_name data_api_name : option string)
    (w : World S) :
  is_active d = false ->
  validate_api (Some d) api_key w
    = (w, Raised (mkExn InactiveAPI InactiveAPI_detail))
  /\ (get_deployment_by_api_name (py_or kw_api_name data_api_name) w
        = (w, Returned (Some d)) ->
      validate_and_process func api_key kw_api_name data_api_name w
        = (w, Raised (mkExn InactiveAPI InactiveAPI_detail))).
Proof.
  intros Hinactive.
  assert (validate_api (Some d) api_key w
          = (w, Raised (mkExn InactiveAPI InactiveAPI_detail))) as Hval.
  { unfold validate_api. rewrite Hinactive. reflexivity. }
  split; [exact Hval|]. intros Hget.
  unfold validate_and_process, bind. rewrite Hget, Hval. reflexivity.
Qed.

End Validation.

(** C3, on the scripted store: nobody deployed ["ghost"]. *)
Lemma validate_unknown_api_name_witness :
  validate_and_process (S := Sim.Store) (fun _ => ret tt) "secret"
    (Some "ghost") None Sim.all_well
  = (Sim.all_well, Raised (mkExn APINotFound "API not found")).
Proof.
  refine (proj2 (proj2 (validate_unknown_api_name_not_found
                          (fun _ => ret tt) "secret" (Some "ghost") None
                          Sim.all_well _))).
  intros d Hd. apply list_elem_of_singleton in Hd. subst d. discriminate.
Defined.

(** C4, on the scripted store: the invoice deployment switched off, asked
    for with its valid key. *)
Lemma validate_inactive_witness :
  let off := {| id := "api-1"; api_name := "invoice-extractor";
                api_endpoint := "deployment/api/acme/invoice-extractor/";
                is_active := false;
                workflow := {| workflow_id := "wf-1" |} |} in
  validate_api (S := Sim.Store) (Some off) "secret" Sim.all_well
  = (Sim.all_well, Raised (mkExn InactiveAPI "API not active")).
Proof.
  intros off.
  exact (proj1 (validate_inactive_before_key (A := unit)
                  (fun _ => ret tt) off "secret" None None Sim.all_well
                  eq_refl)).
Defined.

(** ** Execution dispatch *)

Section Dispatch.
Context {S : Type} `{Backend S}.
Variables (org : string) (api : APIDeployment) (files : list UploadedFile).
Variables (timeout : Z) (include_metadata : bool) (rnd : N).
Variable w : World S.

Local Abbreviation wf := (workflow_id (workflow api)).
Local Abbreviation eid := (generated_execution_id rnd).
Local Abbreviation run :=
  (execute_workflow org api files timeout include_metadata rnd w).

Lemma post_processed_execution_id r :
  er_execution_id (post_processed api include_metadata rnd r)
  = er_execution_id r.
Proof. unfold post_processed. by destruct include_metadata. Qed.

Lemma post_processed_status_api r :
  er_status_api (post_processed api include_metadata rnd r)
  = Some ("/" ++ api_endpoint api ++ "?execution_id=" ++ eid).
Proof.
  unfold post_processed.
  destruct include_metadata; simpl;
    by rewrite construct_status_endpoint_generated.
Qed.

Ltac not_in_log Hin :=
  repeat (apply elem_of_cons in Hin as [Hin|Hin]; [discriminate Hin|]);
  apply elem_of_nil in Hin.

Lemma new_calls_app (w' : World S) (l : list Call) :
  calls w' = (calls w ++ l)%list -> new_calls w w' = l.
Proof. intros Heq. unfold new_calls. rewrite Heq. apply drop_app_length. Qed.

(** C1, as amended: once staging has returned, and provided the cleanup
    call does not raise, [execute_workflow] returns a body and raises
    nothing.  When the engine invocation or the notification raises, the
    body is the error body for that exception: status [ERROR], its text,
    and the generated execution id, which has 36 characters and so is not
    empty.  Otherwise the body is the serialized post-processed result of
    the engine, with the execution id the engine gave it. *)
Theorem dispatch_returns_once_staged s1 hashes :
  add_input_file_to_api_storage wf eid files (ext w)
    = (s1, Returned hashes) ->
  (forall s, exists s', delete_api_storage_dir wf eid s = (s', Returned tt)) ->
  exists w' body,
    run = (w', Returned body)
    /\ String.length eid = 36
    /\ ((exists s2 e,
           execute_workflow_async wf (id api) hashes timeout eid s1
             = (s2, Raised e)
           /\ body = error_body rnd e /\ execution_id body = eid)
        \/ (exists s2 r s3 e,
              execute_workflow_async wf (id api) hashes timeout eid s1
                = (s2, Returned r)
              /\ send_notification api
                   (post_processed api include_metadata rnd r) s2
                 = (s3, Raised e)
              /\ body = error_body rnd e /\ execution_id body = eid)
        \/ (exists s2 r s3 u,
              execute_workflow_async wf (id api) hashes timeout eid s1
                = (s2, Returned r)
              /\ send_notification api
                   (post_processed api include_metadata rnd r) s2
                 = (s3, Returned u)
              /\ body = APIExecutionResponseSerializer
                          (post_processed api include_metadata rnd r)
              /\ execution_id body = er_execution_id r)).
Proof.
  intros Hstage Hdelete.
  destruct (execute_workflow_async wf (id api) hashes timeout eid s1)
    as [s2 [r|e]] eqn:Hengine.
  - destruct (send_notification api
                (post_processed api include_metadata rnd r) s2)
      as [s3 [u|e]] eqn:Hnotify.
    + eexists _, _. split; [by eapply execute_workflow_success|].
      split; [apply generated_execution_id_length|]. do 2 right.
      exists s2, r, s3, u. repeat (split; [done|]).
      apply post_processed_execution_id.
    + destruct (Hdelete s3) as [s4 Hs4]. eexists _, _.
      split; [erewrite execute_workflow_notify_raises by eassumption;
              reflexivity|].
      split; [apply generated_execution_id_length|]. right. left.
      by exists s2, r, s3, e.
  - destruct (Hdelete s2) as [s3 Hs3]. eexists _, _.
    split; [erewrite execute_workflow_engine_raises by eassumption;
            reflexivity|].
    split; [apply generated_execution_id_length|]. left. by exists s2, e.
Qed.

(** C2, as amended: when staging has returned and then the engine
    invocation or the notification raises, [execute_workflow] ends with
    the call that deletes the staging directory of (workflow, execution)
    and returns the error body; given the contract of the deletion, the
    directory does not exist any more. *)
Theorem staging_dir_deleted_after_staged_failure s1 hashes :
  delete_removes_dir ->
  add_input_file_to_api_storage wf eid files (ext w)
    = (s1, Returned hashes) ->
  (exists s2 e,
     execute_workflow_async wf (id api) hashes timeout eid s1
       = (s2, Raised e))
  \/ (exists s2 r s3 e,
        execute_workflow_async wf (id api) hashes timeout eid s1
          = (s2, Returned r)
        /\ send_notification api
             (post_processed api include_metadata rnd r) s2
           = (s3, Raised e)) ->
  exists w' e,
    run = (w', Returned (error_body rnd e))
    /\ last (calls w') = Some (CallDeleteStorageDir wf eid)
    /\ api_storage_dir_exists wf eid (ext w') = false.
Proof.
  intros Hcontract Hstage [(s2 & e & Hengine)|(s2 & r & s3 & e & Hengine & Hnotify)].
  - destruct (Hcontract wf eid s2) as (s3 & Hdel & Hgone).
    eexists _, e. split; [erewrite execute_workflow_engine_raises by eassumption; reflexivity|].
    split; [|exact Hgone]. cbn [calls]. by rewrite last_app.
  - destruct (Hcontract wf eid s3) as (s4 & Hdel & Hgone).
    eexists _, e. split; [erewrite execute_workflow_notify_raises by eassumption; reflexivity|].
    split; [|exact Hgone]. cbn [calls]. by rewrite last_app.
Qed.

Lemma notification_sent_iff :
  notification_sent org api files timeout include_metadata rnd w <->
  exists s1 hashes s2 r,
    add_input_file_to_api_storage wf eid files (ext w)
      = (s1, Returned hashes)
    /\ execute_workflow_async wf (id api) hashes timeout eid s1
       = (s2, Returned r).
Proof.
  unfold notification_sent. split.
  - intros [sent Hsent].
    destruct (add_input_file_to_api_storage wf eid files (ext w))
      as [s1 [hashes|e]] eqn:Hstage.
    + destruct (execute_workflow_async wf (id api) hashes timeout eid s1)
        as [s2 [r|e]] eqn:Hengine; [by exists s1, hashes, s2, r|].
      destruct (delete_api_storage_dir wf eid s2) as [s3 o] eqn:Hdel.
      erewrite execute_workflow_engine_raises in Hsent by done.
      erewrite new_calls_app in Hsent by done.
      by not_in_log Hsent.
    + erewrite execute_workflow_staging_raises in Hsent by done.
      erewrite new_calls_app in Hsent by done.
      by not_in_log Hsent.
  - intros (s1 & hashes & s2 & r & Hstage & Hengine).
    exists (post_processed api include_metadata rnd r).
    destruct (send_notification api
                (post_processed api include_metadata rnd r) s2)
      as [s3 [u|e]] eqn:Hnotify.
    + erewrite execute_workflow_success by done.
      erewrite new_calls_app by done. do 2 right. left.
    + destruct (delete_api_storage_dir wf eid s3) as [s4 o] eqn:Hdel.
      erewrite execute_workflow_notify_raises by done.
      erewrite new_calls_app by done. do 2 right. left.
Qed.

(** C5, as amended: [execute_workflow] calls the notification exactly when
    staging and the engine invocation have both returned; and when that
    call raises, the dispatch takes the failure path: the staging directory
    is deleted and the body is the error body with the text of the
    notification's exception. *)
Theorem notification_follows_success :
  (notification_sent org api files timeout include_metadata rnd w <->
   exists s1 hashes s2 r,
     add_input_file_to_api_storage wf eid files (ext w)
       = (s1, Returned hashes)
     /\ execute_workflow_async wf (id api) hashes timeout eid s1
        = (s2, Returned r))
  /\ (forall s1 hashes s2 r s3 e,
        add_input_file_to_api_storage wf eid files (ext w)
          = (s1, Returned hashes) ->
        execute_workflow_async wf (id api) hashes timeout eid s1
          = (s2, Returned r) ->
        send_notification api
          (post_processed api include_metadata rnd r) s2
          = (s3, Raised e) ->
        (forall s, exists s',
            delete_api_storage_dir wf eid s = (s', Returned tt)) ->
        exists w',
          run = (w', Returned (error_body rnd e))
          /\ CallDeleteStorageDir wf eid ∈ new_calls w w').
Proof.
  split; [exact notification_sent_iff|].
  intros s1 hashes s2 r s3 e Hstage Hengine Hnotify Hdelete.
  destruct (Hdelete s3) as [s4 Hs4]. eexists.
  split; [erewrite execute_workflow_notify_raises by eassumption; reflexivity|].
  erewrite new_calls_app by done. do 3 right. left.
Qed.

(** C6: on a successful dispatch (staging, engine invocation and
    notification all return) the body's [status_api] is the deployment's
    endpoint path, written after a slash, followed by [?execution_id=] and
    the generated execution id. *)
Theorem status_api_carries_execution_id s1 hashes s2 r s3 u :
  add_input_file_to_api_storage wf eid files (ext w)
    = (s1, Returned hashes) ->
  execute_workflow_async wf (id api) hashes timeout eid s1
    = (s2, Returned r) ->
  send_notification api (post_processed api include_metadata rnd r) s2
    = (s3, Returned u) ->
  exists w' body,
    run = (w', Returned body)
    /\ status_api body
       = Some ("/" ++ api_endpoint api ++ "?execution_id=" ++ eid).
Proof.
  intros Hstage Hengine Hnotify. eexists _, _.
  split; [by eapply execute_workflow_success|].
  apply post_processed_status_api.
Qed.

(** C7: on a successful dispatch without [include_metadata], no item of
    the body's result has metadata and the outputs are the engine's; with
    [include_metadata], the result is the engine's result as it came. *)
Theorem metadata_follows_flag s1 hashes s2 r s3 u :
  add_input_file_to_api_storage wf eid files (ext w)
    = (s1, Returned hashes) ->
  execute_workflow_async wf (id api) hashes timeout eid s1
    = (s2, Returned r) ->
  send_notification api (post_processed api include_metadata rnd r) s2
    = (s3, Returned u) ->
  exists w' body,
    run = (w', Returned body)
    /\ (include_metadata = false ->
        Forall (fun i => item_metadata i = None) (result body)
        /\ map item_output (result body) = map item_output (er_result r))
    /\ (include_metadata = true -> result body = er_result r).
Proof.
  intros Hstage Hengine Hnotify. eexists _, _.
  split; [by eapply execute_workflow_success|].
  unfold post_processed. split; intros ->; simpl; [|reflexivity].
  split.
  - apply Forall_forall. intros i Hi.
    apply list_elem_of_In, in_map_iff in Hi as (j & <- & _). reflexivity.
  - rewrite map_map. reflexivity.
Qed.

End Dispatch.

(** ** The dispatch on the scripted store *)

(** C1, refuted as stated: when writing the uploaded files fails, the
    exception of the staging call leaves [execute_workflow]; no body is
    returned. *)
Lemma dispatch_raises_when_staging_fails :
  ~ dispatch_returns_with_id "acme" Sim.invoice_api Sim.two_files 30 false
      12345 Sim.staging_fails.
Proof.
  intros (w' & body & Hrun & _).
  erewrite execute_workflow_staging_raises in Hrun by reflexivity.
  discriminate.
Qed.

(** C1, as amended, with the engine unreachable. *)
Lemma dispatch_returns_once_staged_witness :
  exists w' body,
    execute_workflow "acme" Sim.invoice_api Sim.two_files 30 false 12345
      Sim.engine_fails = (w', Returned body)
    /\ execution_id body = "00000000-0000-4000-8000-000000003039"
    /\ status body = "ERROR".
Proof.
  edestruct (dispatch_returns_once_staged "acme" Sim.invoice_api
               Sim.two_files 30 false 12345 Sim.engine_fails)
    as (w' & body & Hrun & _ & Hbody);
    [reflexivity | intros s; eexists; reflexivity |].
  exists w', body. split; [exact Hrun|].
  destruct Hbody as [(s2 & e & _ & -> & _)
                    |[(s2 & r & s3 & e & Hengine & _)
                     |(s2 & r & s3 & u & Hengine & _)]].
  - split; reflexivity.
  - discriminate Hengine.
  - discriminate Hengine.
Defined.

(** C2, refuted as stated: staging creates the directory, fails on the
    files, and [execute_workflow] leaves without deleting it. *)
Lemma staging_failure_leaves_directory :
  staging_raises Sim.invoice_api Sim.two_files 12345 Sim.staging_fails
  /\ ~ staging_dir_removed "acme" Sim.invoice_api Sim.two_files 30 false
         12345 Sim.staging_fails.
Proof.
  split; [by eexists _, _|].
  unfold staging_dir_removed.
  erewrite execute_workflow_staging_raises by reflexivity.
  vm_compute. discriminate.
Qed.

Lemma sim_delete_removes_dir : delete_removes_dir (S := Sim.Store).
Proof.
  intros wf eid s. eexists. split; [reflexivity|].
  apply bool_decide_eq_false. cbn. apply not_elem_of_difference.
  right. by apply elem_of_singleton.
Qed.

(** C2, as amended, with the engine unreachable. *)
Lemma staging_dir_deleted_witness :
  exists w' e,
    execute_workflow "acme" Sim.invoice_api Sim.two_files 30 false 12345
      Sim.engine_fails = (w', Returned (error_body 12345 e))
    /\ last (calls w')
       = Some (CallDeleteStorageDir "wf-1" (generated_execution_id 12345))
    /\ api_storage_dir_exists "wf-1" (generated_execution_id 12345) (ext w')
       = false.
Proof.
  eapply (staging_dir_deleted_after_staged_failure "acme" Sim.invoice_api
            Sim.two_files 30 false 12345 Sim.engine_fails).
  - exact sim_delete_removes_dir.
  - reflexivity.
  - left. eexists _, _. reflexivity.
Defined.

(** C5, refuted as stated: with the engine unreachable no notification is
    sent; and with the notification sink down the dispatch ends in the
    error state although the engine had succeeded. *)
Lemma no_notification_when_engine_fails :
  ~ notification_sent "acme" Sim.invoice_api Sim.two_files 30 false 12345
      Sim.engine_fails
  /\ (execute_workflow "acme" Sim.invoice_api Sim.two_files 30 false 12345
        Sim.notify_fails).2
     = Returned (error_body 12345 Sim.sink_down).
Proof.
  split.
  - intros Hsent.
    apply notification_sent_iff in Hsent
      as (s1 & hashes & s2 & r & Hstage & Hengine).
    injection Hstage as <- <-. discriminate Hengine.
  - erewrite execute_workflow_notify_raises by reflexivity. reflexivity.
Qed.

(** C5, as amended, with the notification sink down: the notification
    was attempted, and the dispatch ended on the failure path. *)
Lemma notification_follows_success_witness :
  notification_sent "acme" Sim.invoice_api Sim.two_files 30 false 12345
    Sim.notify_fails
  /\ exists w',
       execute_workflow "acme" Sim.invoice_api Sim.two_files 30 false 12345
         Sim.notify_fails = (w', Returned (error_body 12345 Sim.sink_down))
       /\ CallDeleteStorageDir "wf-1" (generated_execution_id 12345)
          ∈ new_calls Sim.notify_fails w'.
Proof.
  destruct (notification_follows_success "acme" Sim.invoice_api
              Sim.two_files 30 false 12345 Sim.notify_fails)
    as [Hsent Hfailure].
  split.
  - apply Hsent. eexists _, _, _, _. split; reflexivity.
  - eapply Hfailure; [reflexivity..|].
    intros s. eexists. reflexivity.
Defined.

(** C6, on the scenario of the specification: two files, a timeout of 30,
    the engine succeeds. *)
Lemma status_api_witness :
  exists w' body,
    execute_workflow "acme" Sim.invoice_api Sim.two_files 30 false 12345
      Sim.all_well = (w', Returned body)
    /\ status_api body
       = Some ("/deployment/api/acme/invoice-extractor/" ++
               "?execution_id=00000000-0000-4000-8000-000000003039").
Proof.
  eapply (status_api_carries_execution_id "acme" Sim.invoice_api
            Sim.two_files 30 false 12345 Sim.all_well); reflexivity.
Defined.

(** C7, on the same scenario, with and without the flag. *)
Lemma metadata_follows_flag_witness :
  (exists w' body,
     execute_workflow "acme" Sim.invoice_api Sim.two_files 30 false 12345
       Sim.all_well = (w', Returned body)
     /\ map item_metadata (result body) = [None; None])
  /\ (exists w' body,
        execute_workflow "acme" Sim.invoice_api Sim.two_files 30 true 12345
          Sim.all_well = (w', Returned body)
        /\ map item_metadata (result body) = [Some "pages: 2"; None]).
Proof.
  split.
  - edestruct (metadata_follows_flag "acme" Sim.invoice_api Sim.two_files
                 30 false 12345 Sim.all_well)
      as (w' & body & Hrun & _ & _); [reflexivity..|].
    exists w', body. split; [exact Hrun|].
    injection Hrun as _ <-. reflexivity.
  - edestruct (metadata_follows_flag "acme" Sim.invoice_api Sim.two_files
                 30 true 12345 Sim.all_well)
      as (w' & body & Hrun & _ & Hkept); [reflexivity..|].
    exists w', body. split; [exact Hrun|].
    rewrite (Hkept eq_refl). reflexivity.
Defined.

(** ** Password complexity *)

Import AuthenticationService.

Lemma existsb_false_iff (f : N -> bool) (l : ustr) :
  existsb f l = false <-> forall c, c ∈ l -> f c = false.
Proof.
  split.
  - intros Hnone c Hc. apply not_true_is_false. intros Hfc.
    assert (existsb f l = true) as Hsome; [|congruence].
    apply existsb_exists. exists c. by rewrite <- list_elem_of_In.
  - intros Hnone. apply not_true_is_false. intros Hsome.
    apply existsb_exists in Hsome as (c & Hin & Hc).
    apply list_elem_of_In in Hin. rewrite (Hnone c Hin) in Hc. discriminate.
Qed.

(** The check raises [ValueError] on the weak passwords, and on them
    only. *)
Lemma weak_password_raises (password : ustr) :
  weak_password password <->
  exists message,
    _validate_password_complexity (Some password)
    = Raised (mkExn ValueError message).
Proof.
  unfold weak_password, _validate_password_complexity.
  rewrite <- !existsb_false_iff.
  destruct (List.length password <? 12)%nat eqn:Hlen.
  { split; [by eexists|]. intros _. left. by apply Nat.ltb_lt. }
  apply Nat.ltb_ge in Hlen.
  destruct (existsb is_upper password); cbn [negb];
    [|split; [by eexists|]; intros _; right; by left].
  destruct (existsb is_lower password); cbn [negb];
    [|split; [by eexists|]; intros _; do 2 right; by left].
  destruct (existsb is_digit password); cbn [negb];
    [|split; [by eexists|]; intros _; do 3 right; by left].
  destruct (existsb is_special password); cbn [negb];
    [|split; [by eexists|]; intros _; by do 4 right].
  split.
  - intros [Hshort|[Hno|[Hno|[Hno|Hno]]]]; [lia|discriminate..].
  - intros [message Heq]. discriminate Heq.
Qed.

(** ** Login and its rate limiter *)

Section Login.
Context {S : Type} `{Django S}.

Local Abbreviation World := (AuthenticationService.World S).
Local Abbreviation calls := AuthenticationService.calls.
Local Abbreviation ext := AuthenticationService.ext.
Local Abbreviation mkWorld := AuthenticationService.mkWorld.

(** A rate-limited client gets the rate-limit page and nothing happens. *)
Lemma user_login_rate_limited (request : Request) (w : World) :
  5 <= attempts (_get_client_ip request) w ->
  user_login request w = (w, Returned rate_limit_page).
Proof.
  intros Hlimited. unfold user_login, bind, _is_rate_limited.
  unfold attempts in Hlimited.
  rewrite (proj2 (Nat.leb_le _ _) Hlimited). reflexivity.
Qed.

(** C10: when the first [authenticate] call returns a superuser,
    [authenticate_and_login] returns [False]; the only call it made is
    that [authenticate], so the user is not logged in. *)
Theorem superuser_is_refused (request : Request)
    (username password : option ustr) (w : World) (s' : S) (user : User) :
  authenticate request username password (ext w)
    = (s', Returned (Some user)) ->
  is_superuser user = true ->
  authenticate_and_login request username password w
  = (mkWorld s' (login_attempts w)
       (calls w ++ [CallAuthenticate request username password]),
     Returned false).
Proof.
  intros Hauth Hsuper.
  unfold authenticate_and_login, bind, AuthenticationService.call.
  rewrite Hauth, Hsuper. reflexivity.
Qed.

(** The run of a POST whose validated password the complexity check
    refuses with [message]. *)
Lemma user_login_refused_password (request : Request) (w : World)
    (password : ustr) (message : string) :
  method request = "POST" ->
  attempts (_get_client_ip request) w < 5 ->
  is_valid (LoginRequestSerializer (POST request)) = true ->
  validated_data (LoginRequestSerializer (POST request)) !! "password"
    = Some password ->
  _validate_password_complexity (Some password)
    = Raised (mkExn ValueError message) ->
  user_login request w
  = (mkWorld (ext w)
       (<[_get_client_ip request
          := attempts (_get_client_ip request) w + 1]> (login_attempts w))
       (calls w),
     Returned (Rendered TEMPLATE [(ERROR_PLACE_HOLDER, message)])).
Proof.
  intros Hpost Hfree Hvalid Hpassword Hraise.
  unfold user_login, bind, _is_rate_limited.
  unfold attempts in Hfree.
  rewrite (proj2 (Nat.leb_gt _ _) Hfree).
  destruct (decide (method request = "GET")) as [Hget|_];
    [rewrite Hpost in Hget; discriminate|].
  unfold try_except_ValueError, validate_login_credentials, lift, ret.
  rewrite Hvalid. cbn [negb]. rewrite Hpassword, Hraise. reflexivity.
Qed.

(** C9, as amended: a POST from a client that is not rate limited, whose
    password as the serializer hands it back is weak, gets the error page
    with the message of the complexity check; the client's counter goes up
    by one and neither the call log nor Django's state changes, so
    [authenticate_and_login] was not called. *)
Theorem weak_password_is_rejected (request : Request) (w : World)
    (password : ustr) :
  method request = "POST" ->
  attempts (_get_client_ip request) w < 5 ->
  is_valid (LoginRequestSerializer (POST request)) = true ->
  validated_data (LoginRequestSerializer (POST request)) !! "password"
    = Some password ->
  weak_password password ->
  rejected_and_counted request w
  /\ exists message,
       _validate_password_complexity (Some password)
         = Raised (mkExn ValueError message)
       /\ (user_login request w).2
          = Returned (Rendered TEMPLATE [(ERROR_PLACE_HOLDER, message)]).
Proof.
  intros Hpost Hfree Hvalid Hpassword Hweak.
  apply weak_password_raises in Hweak as [message Hraise].
  pose proof (user_login_refused_password request w password message
                Hpost Hfree Hvalid Hpassword Hraise) as Hrun.
  split.
  - eexists _, message. split; [exact Hrun|].
    split; [|split; reflexivity].
    unfold attempts. cbn [login_attempts].
    rewrite lookup_insert_eq. reflexivity.
  - exists message. split; [exact Hraise|]. by rewrite Hrun.
Qed.

(** *** The frame of a login from another client *)

Lemma untouched_refl ip (w : World) : untouched ip w w.
Proof.
  split; [reflexivity|]. exists []. split; [by rewrite app_nil_r|constructor].
Qed.

Lemma untouched_trans ip (w1 w2 w3 : World) :
  untouched ip w1 w2 -> untouched ip w2 w3 -> untouched ip w1 w3.
Proof.
  intros [Hcount1 (new1 & Hcalls1 & Hnone1)] [Hcount2 (new2 & Hcalls2 & Hnone2)].
  split; [congruence|]. exists (new1 ++ new2)%list. split.
  - rewrite Hcalls2, Hcalls1. by rewrite <- (assoc_L (++)).
  - by apply Forall_app.
Qed.

(** [keeps ip m]: running [m] leaves [ip] untouched, however it ends. *)
Local Abbreviation keeps ip m := (forall w : World, untouched ip w (m w).1).

Lemma keeps_bind {A B} ip (m : Eff World A) (k : A -> Eff World B) :
  keeps ip m -> (forall a, keeps ip (k a)) -> keeps ip (bind m k).
Proof.
  intros Hm Hk w. unfold bind. specialize (Hm w).
  destruct (m w) as [w1 [a|e]]; [|exact Hm].
  eapply untouched_trans; [exact Hm|apply Hk].
Qed.

Lemma keeps_call {A} ip (c : AuthenticationService.Call)
    (op : S -> S * Outcome A) :
  ~ authenticates_for ip c -> keeps ip (AuthenticationService.call c op).
Proof.
  intros Hc w. unfold AuthenticationService.call.
  destruct (op (ext w)) as [s' o]. split; [reflexivity|].
  exists [c]. split; [reflexivity|]. by constructor.
Qed.

Lemma keeps_increment ip ip' :
  ip' <> ip -> keeps ip (_increment_login_attempt ip').
Proof.
  intros Hne w. split; [apply lookup_insert_ne, Hne|].
  exists []. split; [by rewrite app_nil_r|constructor].
Qed.

Lemma keeps_reset ip ip' : ip' <> ip -> keeps ip (_reset_login_attempts ip').
Proof.
  intros Hne w. unfold _reset_login_attempts.
  destruct (login_attempts w !! ip'); [|apply untouched_refl].
  split; [apply lookup_delete_ne, Hne|].
  exists []. split; [by rewrite app_nil_r|constructor].
Qed.

Lemma keeps_authenticate_and_login ip request username password :
  _get_client_ip request <> ip ->
  keeps ip (authenticate_and_login request username password).
Proof.
  intros Hne. unfold authenticate_and_login.
  apply keeps_bind; [by apply keeps_call|]. intros [user|].
  - destruct (is_superuser user); [intros w; apply untouched_refl|].
    apply keeps_bind; [by apply keeps_call; intros []|].
    intros _ w. apply untouched_refl.
  - apply keeps_bind; [by apply keeps_call; intros []|]. intros [|].
    + apply keeps_bind; [by apply keeps_call|]. intros [user|].
      * apply keeps_bind; [by apply keeps_call; intros []|].
        intros _ w. apply untouched_refl.
      * intros w. apply untouched_refl.
    + intros w. apply untouched_refl.
Qed.

Lemma keeps_user_login ip request :
  _get_client_ip request <> ip -> keeps ip (user_login request).
Proof.
  intros Hne. unfold user_login.
  apply keeps_bind; [intros w; apply untouched_refl|]. intros [|].
  { intros w. apply untouched_refl. }
  destruct (decide (method request = "GET")).
  { intros w. apply untouched_refl. }
  apply keeps_bind.
  - intros w. unfold try_except_ValueError, bind,
      validate_login_credentials, lift, ret, raise.
    destruct (is_valid _); cbn [negb].
    + destruct (_validate_password_complexity _) as [[]|e];
        [apply untouched_refl|].
      destruct (exn_class e); try apply untouched_refl.
      apply (keeps_increment ip _ Hne w).
    + destruct (first_errors _) as [[|message ?]|];
        try apply untouched_refl.
      apply (keeps_increment ip _ Hne w).
  - intros [[username password]|response]; [|intros w; apply untouched_refl].
    apply keeps_bind; [by apply keeps_authenticate_and_login|].
    intros [|]; (apply keeps_bind;
                 [by first [apply keeps_reset | apply keeps_increment]|]);
      intros _ w; apply untouched_refl.
Qed.

(** C8: once the counter of a client has reached 5, the instance answers
    every later request of that client, whatever the requests of all
    clients are, with the rate-limit page; the counter stays at 5 or more
    and no authentication is attempted for that client.  The code has no
    window that expires and, authentication being out of reach, no login
    that could reset the counter. *)
Theorem rate_limited_client_stays_locked (ip : option string)
    (requests : list Request) (w : World) :
  5 <= attempts ip w ->
  5 <= attempts ip (serve requests w).1
  /\ Forall2 (fun request response =>
                _get_client_ip request = ip ->
                response = Returned rate_limit_page)
       requests (serve requests w).2
  /\ exists new,
       calls (serve requests w).1 = (calls w ++ new)%list
       /\ Forall (fun c => ~ authenticates_for ip c) new.
Proof.
  revert w. induction requests as [|request rest IH]; intros w Hlimited.
  { split; [exact Hlimited|]. split; [constructor|].
    exists []. split; [by rewrite app_nil_r|constructor]. }
  cbn [serve].
  destruct (decide (_get_client_ip request = ip)) as [Hsame|Hother].
  - rewrite user_login_rate_limited by (by rewrite Hsame).
    destruct (IH w Hlimited) as (Hstill & Hpages & Hcalls).
    destruct (serve rest w) as [w'' responses]. cbn [fst snd] in *.
    split; [exact Hstill|]. split; [|exact Hcalls].
    constructor; [done|exact Hpages].
  - pose proof (keeps_user_login ip request Hother w)
      as [Hcount (new1 & Hcalls1 & Hnone1)].
    destruct (user_login request w) as [w1 response]. cbn [fst] in *.
    assert (5 <= attempts ip w1) as Hlimited1.
    { unfold attempts in *. by rewrite Hcount. }
    destruct (IH w1 Hlimited1) as (Hstill & Hpages & new2 & Hcalls2 & Hnone2).
    destruct (serve rest w1) as [w'' responses]. cbn [fst snd] in *.
    split; [exact Hstill|]. split; [by constructor|].
    exists (new1 ++ new2)%list. split.
    + rewrite Hcalls2, Hcalls1. by rewrite <- (assoc_L (++)).
    + by apply Forall_app.
Qed.

End Login.

(** ** The login path on the scripted accounts *)

Lemma five_failures_recorded :
  attempts (Some "10.0.0.1") Sim.five_failures = 5.
Proof. vm_compute. reflexivity. Qed.

(** C8: after five failed logins from 10.0.0.1, that client is turned away
    even with Alice's right credentials, while 10.0.0.2 logs in. *)
Lemma rate_limited_client_witness :
  let requests :=
    [ Sim.post "10.0.0.1" Sim.alice_name Sim.strong_password;
      Sim.post "10.0.0.2" Sim.alice_name Sim.strong_password;
      Sim.post "10.0.0.1" Sim.alice_name Sim.strong_password ] in
  5 <= attempts (Some "10.0.0.1") (serve requests Sim.five_failures).1
  /\ Forall2 (fun request response =>
                _get_client_ip request = Some "10.0.0.1" ->
                response = Returned rate_limit_page)
       requests (serve requests Sim.five_failures).2
  /\ exists new,
       AuthenticationService.calls (serve requests Sim.five_failures).1
       = (AuthenticationService.calls Sim.five_failures ++ new)%list
       /\ Forall (fun c => ~ authenticates_for (Some "10.0.0.1") c) new.
Proof.
  intros requests.
  apply (rate_limited_client_stays_locked (Some "10.0.0.1") requests
           Sim.five_failures).
  rewrite five_failures_recorded. apply le_n.
Defined.

(** C9, refuted as stated: the sixth POST from 10.0.0.1 carries a weak
    password, and the counter stays at 5. *)
Lemma weak_password_not_counted_when_limited :
  weak_password Sim.short_password
  /\ ~ rejected_and_counted
        (Sim.post "10.0.0.1" Sim.alice_name Sim.short_password)
        Sim.five_failures.
Proof.
  split; [left; cbn; lia|].
  intros (w' & message & Hrun & Hcount & _).
  rewrite user_login_rate_limited in Hrun
    by (cbn [_get_client_ip Sim.post]; cbn; by rewrite five_failures_recorded).
  injection Hrun as <- _. lia.
Qed.

(** C9, as amended: the first POST from 10.0.0.1 with the weak password. *)
Lemma weak_password_witness :
  let request := Sim.post "10.0.0.1" Sim.alice_name Sim.short_password in
  rejected_and_counted request Sim.fresh
  /\ (user_login request Sim.fresh).2
     = Returned (Rendered "login.html"
                   [("error_message",
                     "Password must be at least 12 characters long")]).
Proof.
  intros request.
  destruct (weak_password_is_rejected request Sim.fresh Sim.short_password)
    as [Hcounted (message & Hraise & Hpage)].
  - reflexivity.
  - vm_compute. lia.
  - vm_compute. reflexivity.
  - vm_compute. reflexivity.
  - left. cbn. lia.
  - split; [exact Hcounted|]. rewrite Hpage.
    injection Hraise as <-. reflexivity.
Defined.

(** C10: root's right credentials are refused, and the session stays
    empty. *)
Lemma superuser_is_refused_witness :
  let request := Sim.post "10.0.0.2" Sim.root_name Sim.strong_password in
  authenticate_and_login request (Some Sim.root_name)
    (Some Sim.strong_password) Sim.fresh
  = (AuthenticationService.mkWorld Sim.accounts ∅
       [CallAuthenticate request (Some Sim.root_name)
          (Some Sim.strong_password)],
     Returned false).
Proof.
  intros request.
  exact (superuser_is_refused request (Some Sim.root_name)
           (Some Sim.strong_password) Sim.fresh Sim.accounts Sim.root
           eq_refl eq_refl).
Defined.

(** * Further properties of the code *)

(** ** The [.env] file editor *)

Section EnvLines.
Import CredentialsView.

Lemma append_cons c (a b : string) : String c a ++ b = String c (a ++ b).
Proof. reflexivity. Qed.



Lemma append_assoc_string (a b c : string) : (a ++ b) ++ c = a ++ (b ++ c).
Proof.
  induction a as [|x a IH]; [reflexivity|]. rewrite !append_cons. by f_equal.
Qed.

Lemma prefix_append (p s : string) : String.prefix p (p ++ s) = true.
Proof.
  induction p as [|c p IH]; [by destruct s|].
  rewrite append_cons. simpl. destruct (ascii_dec c c); [exact IH|done].
Qed.

Lemma env_entry_starts_with_key key value :
  String.prefix (key ++ "=") (env_entry key value) = true.
Proof.
  unfold env_entry. rewrite <- append_assoc_string. apply prefix_append.
Qed.

Lemma updated_lines_nil key value :
  updated_lines key value [] = [env_entry key value].
Proof. reflexivity. Qed.

Lemma updated_lines_cons key value line rest :
  updated_lines key value (line :: rest)
  = if String.prefix (key ++ "=") line then env_entry key value :: rest
    else line :: updated_lines key value rest.
Proof.
  unfold updated_lines. simpl.
  destruct (String.prefix (key ++ "=") line); [reflexivity|].
  by destruct (replace_first _ _ rest).
Qed.

(** X1: the loop of [update_env_file] changes exactly one position.  When
    some line starts with [key=], the first such line, at index [i], is
    overwritten by the new entry ([lines[i] = ...]) and nothing else
    changes; when no line does, the entry is appended. *)
Theorem updated_lines_first_match key value (lines : list string) :
  (exists i line,
     lines !! i = Some line
     /\ String.prefix (key ++ "=") line = true
     /\ (forall j other, j < i -> lines !! j = Some other ->
           String.prefix (key ++ "=") other = false)
     /\ updated_lines key value lines = <[i := env_entry key value]> lines)
  \/ ((forall line, line ∈ lines ->
         String.prefix (key ++ "=") line = false)
      /\ updated_lines key value lines
         = (lines ++ [env_entry key value])%list).
Proof.
  induction lines as [|line rest IH].
  { right. split; [|reflexivity]. intros line Hin. by apply elem_of_nil in Hin. }
  rewrite updated_lines_cons.
  destruct (String.prefix (key ++ "=") line) eqn:Hline.
  { left. exists 0, line. split; [reflexivity|]. split; [exact Hline|].
    split; [|reflexivity]. intros j other Hj. lia. }
  destruct IH as [(i & found & Hi & Hfound & Hfirst & Heq)|[Hnone Heq]].
  - left. exists (Datatypes.S i), found. split; [exact Hi|].
    split; [exact Hfound|]. split; [|by rewrite Heq].
    intros [|j] other Hj Hother.
    + by injection Hother as <-.
    + apply (Hfirst j other); [lia|exact Hother].
  - right. split; [|by rewrite Heq].
    intros other Hin. apply elem_of_cons in Hin as [->|Hin]; [exact Hline|].
    by apply Hnone.
Qed.


(** X2: the lines that are not entries of [key] come through an update
    unchanged and in the same order, and the number of entries of [key]
    stays what it was, or becomes one when there was none: later
    duplicates of the key are neither removed nor updated. *)
Theorem updated_lines_keeps_the_rest key value (lines : list string) :
  List.filter (fun line => negb (String.prefix (key ++ "=") line))
    (updated_lines key value lines)
  = List.filter (fun line => negb (String.prefix (key ++ "=") line)) lines
  /\ List.length (List.filter (String.prefix (key ++ "="))
                    (updated_lines key value lines))
     = Nat.max 1 (List.length (List.filter (String.prefix (key ++ "="))
                                 lines))
  /\ List.tl (List.filter (String.prefix (key ++ "="))
                (updated_lines key value lines))
     = List.tl (List.filter (String.prefix (key ++ "=")) lines).
Proof.
  induction lines as [|line rest (IHrest & IHcount & IHtail)].
  { rewrite updated_lines_nil. simpl.
    by rewrite env_entry_starts_with_key. }
  rewrite updated_lines_cons.
  destruct (String.prefix (key ++ "=") line) eqn:Hline; simpl.
  - rewrite env_entry_starts_with_key, Hline. simpl. done.
  - rewrite Hline. simpl. by rewrite IHrest.
Qed.

Lemma updated_lines_twice key value1 value2 (lines : list string) :
  updated_lines key value2 (updated_lines key value1 lines)
  = updated_lines key value2 lines.
Proof.
  induction lines as [|line rest IH].
  { rewrite updated_lines_nil, updated_lines_cons.
    by rewrite env_entry_starts_with_key. }
  rewrite !updated_lines_cons.
  destruct (String.prefix (key ++ "=") line) eqn:Hline.
  - rewrite updated_lines_cons. by rewrite env_entry_starts_with_key.
  - rewrite updated_lines_cons, Hline. by rewrite IH.
Qed.


(** X3: the last write wins: two updates of a key in a row leave the
    lines of the second update alone, whatever the first one wrote; with
    the same value, an update is idempotent. *)
Theorem updated_lines_last_write_wins key value1 value2
    (lines : list string) :
  updated_lines key value2 (updated_lines key value1 lines)
  = updated_lines key value2 lines
  /\ updated_lines key value2 (updated_lines key value2 lines)
     = updated_lines key value2 lines.
Proof. split; apply updated_lines_twice. Qed.

End EnvLines.

(** ** The [.env] file on disk *)

Section EnvFileText.
Import CredentialsView EnvText.














End EnvFileText.

Section EnvFileUpdate.
Import CredentialsView EnvText.
Context {S : Type} `{Tenant S}.

Local Abbreviation put content w :=
  (mkWorld (ext w) (environ w) (with_content content (env_file w))).








End EnvFileUpdate.

(** ** The credentials views *)

Section CredentialViews.
Import CredentialsView EnvText.
Context {S : Type} `{Tenant S}.

Local Abbreviation USERNAME := "DEFAULT_AUTH_USERNAME".
Local Abbreviation PASSWORD := "DEFAULT_AUTH_PASSWORD".
Local Abbreviation no_NUL v :=
  (existsb (Ascii.eqb NUL) (list_ascii_of_string v) = false).
Local Abbreviation answer code body := {| status := code; data := body |}.

Lemma require_admin_passes request (w : World S) s1 member s2 :
  get_user_by_id (user_id request) (ext w) = (s1, Returned member) ->
  is_organization_admin member s1 = (s2, Returned true) ->
  require_admin request w
  = (mkWorld s2 (environ w) (env_file w), Returned tt).
Proof.
  intros Hmember Hadmin. unfold require_admin, bind, tenant. cbn [ext].
  rewrite Hmember. cbn [ext]. by rewrite Hadmin.
Qed.

Lemma require_admin_refuses request (w : World S) s1 member s2 :
  get_user_by_id (user_id request) (ext w) = (s1, Returned member) ->
  is_organization_admin member s1 = (s2, Returned false) ->
  require_admin request w
  = (mkWorld s2 (environ w) (env_file w),
     Raised (mkExn (OtherException "Forbidden") Forbidden_detail)).
Proof.
  intros Hmember Hadmin. unfold require_admin, bind, tenant. cbn [ext].
  rewrite Hmember. cbn [ext]. by rewrite Hadmin.
Qed.

Lemma require_admin_frame request (w : World S) :
  environ (require_admin request w).1 = environ w
  /\ env_file (require_admin request w).1 = env_file w.
Proof.
  unfold require_admin, bind, tenant.
  destruct (get_user_by_id (user_id request) (ext w)) as [s1 [member|e]];
    [|done].
  cbn [ext]. destruct (is_organization_admin member s1) as [s2 [[|]|e]];
    done.
Qed.

Lemma update_env_file_environ key value (w : World S) :
  environ (update_env_file key value w).1 = environ w
  /\ ext (update_env_file key value w).1 = ext w.
Proof.
  unfold update_env_file.
  destruct (env_content (env_file w)); [|done].
  destruct (read_error (env_file w)); [done|].
  by destruct (write_error (env_file w)).
Qed.

Lemma environ_set_value key v (w : World S) :
  no_NUL v ->
  environ_set key (Some v) w
  = (mkWorld (ext w) (<[key := v]> (environ w)) (env_file w), Returned tt).
Proof. intros Hv. unfold environ_set. by rewrite Hv. Qed.

(** X7: a member who is not an administrator gets [Forbidden] from both
    views, before anything else happens: the request data is not looked
    at, and neither the environment nor the file changes. *)
Theorem credentials_views_refuse_non_admin request (w : World S)
    s1 member s2 :
  get_user_by_id (user_id request) (ext w) = (s1, Returned member) ->
  is_organization_admin member s1 = (s2, Returned false) ->
  get_default_credentials request w
  = (mkWorld s2 (environ w) (env_file w),
     Raised (mkExn (OtherException "Forbidden") Forbidden_detail))
  /\ update_default_credentials request w
     = (mkWorld s2 (environ w) (env_file w),
        Raised (mkExn (OtherException "Forbidden") Forbidden_detail)).
Proof.
  intros Hmember Hadmin.
  pose proof (require_admin_refuses request w s1 member s2 Hmember Hadmin)
    as Hrefused.
  unfold get_default_credentials, update_default_credentials, bind.
  by rewrite Hrefused.
Qed.


(** X9: an answer of 200 from [update_default_credentials] means that the
    environment now holds the validated username and password, and an
    administrator who then calls [get_default_credentials] is given
    exactly these two. *)
Theorem updated_credentials_are_served request (w w' : World S) response :
  update_default_credentials request w = (w', Returned response) ->
  status response = 200 ->
  exists username password,
    validated_data (CredentialsSerializer (request_data request))
      !! "username" = Some username
    /\ validated_data (CredentialsSerializer (request_data request))
         !! "password" = Some password
    /\ environ w' !! USERNAME = Some username
    /\ environ w' !! PASSWORD = Some password
    /\ forall reader w1,
         require_admin reader w' = (w1, Returned tt) ->
         get_default_credentials reader w'
         = (w1, Returned (answer 200 (Credentials username password))).
Proof.
  unfold update_default_credentials, bind.
  destruct (require_admin request w) as [w1 [[]|e]]; [|done].
  destruct (is_valid (CredentialsSerializer (request_data request)));
    cbn [negb]; [|by intros [= <- <-]].
  unfold try_except, bind, ret.
  destruct (validated_data _ !! "username") as [username|] eqn:Hu;
    [|by intros [= <- <-]].
  destruct (validated_data _ !! "password") as [password|] eqn:Hp.
  2: { unfold environ_set at 1.
       destruct (existsb _ _); by intros [= <- <-]. }
  unfold environ_set.
  destruct (existsb _ (list_ascii_of_string username));
    [by intros [= <- <-]|].
  destruct (existsb _ (list_ascii_of_string password));
    [by intros [= <- <-]|].
  cbn [ext environ env_file]. change (default "None" (Some username))
    with username. change (default "None" (Some password)) with password.
  match goal with
  | |- context [update_env_file USERNAME username ?w2] =>
      pose proof (update_env_file_environ USERNAME username w2) as [Henv2 _];
      destruct (update_env_file USERNAME username w2) as [w3 [[]|e]];
      [|by intros [= <- <-]]
  end.
  pose proof (update_env_file_environ PASSWORD password w3) as [Henv3 _].
  destruct (update_env_file PASSWORD password w3) as [w4 [[]|e]];
    [|by intros [= <- <-]].
  intros [= <- <-] _. cbn [fst environ] in *.
  exists username, password. split; [done|]. split; [done|].
  assert (environ w4 !! USERNAME = Some username
          /\ environ w4 !! PASSWORD = Some password) as [Hgetu Hgetp].
  { rewrite Henv3, Henv2. split.
    - rewrite lookup_insert_ne by done. apply lookup_insert_eq.
    - apply lookup_insert_eq. }
  split; [exact Hgetu|]. split; [exact Hgetp|].
  intros reader w5 Hreader. unfold get_default_credentials, bind.
  rewrite Hreader. unfold environ_get.
  pose proof (require_admin_frame reader w4) as [Henv5 _].
  rewrite Hreader in Henv5. cbn [fst] in Henv5.
  by rewrite Henv5, Hgetu, Hgetp.
Qed.

(** X10: when the [.env] file exists but cannot be opened for writing, an
    administrator's valid update is answered with 500, yet both
    credentials are already changed in the environment of the process;
    the file is as it was. *)
Theorem update_fails_after_changing_environ request (w : World S)
    s1 member s2 username password content e :
  get_user_by_id (user_id request) (ext w) = (s1, Returned member) ->
  is_organization_admin member s1 = (s2, Returned true) ->
  is_valid (CredentialsSerializer (request_data request)) = true ->
  validated_data (CredentialsSerializer (request_data request))
    !! "username" = Some username ->
  validated_data (CredentialsSerializer (request_data request))
    !! "password" = Some password ->
  no_NUL username -> no_NUL password ->
  env_content (env_file w) = Some content ->
  read_error (env_file w) = None ->
  write_error (env_file w) = Some e ->
  update_default_credentials request w
  = (mkWorld s2
       (<[PASSWORD := password]> (<[USERNAME := username]> (environ w)))
       (env_file w),
     Returned (answer 500 (Error "Failed to update default credentials"))).
Proof.
  intros Hmember Hadmin Hvalid Hu Hp Hnu Hnp Hcontent Hread Hwrite.
  unfold update_default_credentials, bind.
  rewrite (require_admin_passes request w s1 member s2) by done.
  rewrite Hvalid, Hu, Hp. cbn [negb default].
  unfold try_except, bind.
  rewrite environ_set_value by done. rewrite environ_set_value by done.
  cbn [ext environ env_file]. unfold update_env_file. cbn [env_file].
  by rewrite Hcontent, Hread, Hwrite.
Qed.

(** X11: when there is no [.env] file, an administrator's valid update is
    answered with 200 and the success message although nothing is written
    to disk: only the environment of the process changes, and no file is
    created. *)
Theorem update_succeeds_without_env_file request (w : World S)
    s1 member s2 username password :
  get_user_by_id (user_id request) (ext w) = (s1, Returned member) ->
  is_organization_admin member s1 = (s2, Returned true) ->
  is_valid (CredentialsSerializer (request_data request)) = true ->
  validated_data (CredentialsSerializer (request_data request))
    !! "username" = Some username ->
  validated_data (CredentialsSerializer (request_data request))
    !! "password" = Some password ->
  no_NUL username -> no_NUL password ->
  env_content (env_file w) = None ->
  update_default_credentials request w
  = (mkWorld s2
       (<[PASSWORD := password]> (<[USERNAME := username]> (environ w)))
       (env_file w),
     Returned (answer 200
                 (Message "Default credentials updated successfully"))).
Proof.
  intros Hmember Hadmin Hvalid Hu Hp Hnu Hnp Hcontent.
  unfold update_default_credentials, bind.
  rewrite (require_admin_passes request w s1 member s2) by done.
  rewrite Hvalid, Hu, Hp. cbn [negb default].
  unfold try_except, bind.
  rewrite environ_set_value by done. rewrite environ_set_value by done.
  cbn [ext environ env_file]. unfold update_env_file, ret.
  cbn [env_file]. rewrite Hcontent. cbn [env_file]. by rewrite Hcontent.
Qed.

End CredentialViews.

(** ** The credentials views on the scripted tenant *)

Section CredentialViewsScripted.
Import CredentialsView EnvText.





(** X7: the plain user [u-2] is refused. *)
Lemma credentials_views_refuse_witness :
  let w := SimTenant.world (Some SimTenant.finished) None in
  update_default_credentials (SimTenant.user_post "mallory" "pw") w
  = (w, Raised (mkExn (OtherException "Forbidden")
                  "You do not have permission to perform this action.")).
Proof.
  intros w.
  exact (proj2 (credentials_views_refuse_non_admin
                  (SimTenant.user_post "mallory" "pw") w
                  SimTenant.members {| member_id := "m-2"; role := "user" |}
                  SimTenant.members eq_refl eq_refl)).
Defined.


(** X9: what the administrator stored is what the administrator reads. *)
Lemma updated_credentials_witness :
  let w := SimTenant.world (Some SimTenant.finished) None in
  let w' :=
    (update_default_credentials (SimTenant.admin_post "alice" "s3cret") w).1
  in
  (get_default_credentials (SimTenant.admin_post "x" "y") w').2
  = Returned {| status := 200; data := Credentials "alice" "s3cret" |}.
Proof.
  intros w w'.
  destruct (updated_credentials_are_served
              (SimTenant.admin_post "alice" "s3cret") w w'
              {| status := 200;
                 data :=
                   Message "Default credentials updated successfully" |})
    as (username & password & Hu & Hp & _ & _ & Hserved);
    [vm_compute; reflexivity | reflexivity |].
  injection Hu as <-. injection Hp as <-.
  erewrite Hserved by reflexivity. reflexivity.
Defined.

(** X10: the same update on a read-only file. *)
Lemma update_fails_witness :
  let w := SimTenant.world (Some SimTenant.finished)
             (Some SimTenant.read_only) in
  update_default_credentials (SimTenant.admin_post "alice" "s3cret") w
  = (mkWorld SimTenant.members
       (<["DEFAULT_AUTH_PASSWORD" := "s3cret"]>
          (<["DEFAULT_AUTH_USERNAME" := "alice"]> ∅))
       (env_file w),
     Returned {| status := 500;
                 data := Error "Failed to update default credentials" |}).
Proof.
  intros w.
  apply (update_fails_after_changing_environ
           (SimTenant.admin_post "alice" "s3cret") w
           SimTenant.members {| member_id := "m-1"; role := "admin" |}
           SimTenant.members "alice" "s3cret" SimTenant.finished
           SimTenant.read_only); reflexivity.
Defined.

(** X11: the same update with no file at all. *)
Lemma update_without_file_witness :
  let w := SimTenant.world None None in
  update_default_credentials (SimTenant.admin_post "alice" "s3cret") w
  = (mkWorld SimTenant.members
       (<["DEFAULT_AUTH_PASSWORD" := "s3cret"]>
          (<["DEFAULT_AUTH_USERNAME" := "alice"]> ∅))
       (env_file w),
     Returned {| status := 200;
                 data :=
                   Message "Default credentials updated successfully" |}).
Proof.
  intros w.
  apply (update_succeeds_without_env_file
           (SimTenant.admin_post "alice" "s3cret") w
           SimTenant.members {| member_id := "m-1"; role := "admin" |}
           SimTenant.members "alice" "s3cret"); reflexivity.
Defined.

End CredentialViewsScripted.

(** ** Validation of a request to a deployment *)

Section ValidateAndProcess.
Import DeploymentHelper.
Context {S : Type} `{Backend S} {A : Type}.
Variable func : option APIDeployment -> Eff (World S) A.
Variables (api_key : string) (kw_api_name data_api_name : option string).
Variable w : World S.

Local Abbreviation name := (py_or kw_api_name data_api_name).

Lemma get_deployment_reads_only (n : option string) :
  (get_deployment_by_api_name n w).1 = w.
Proof.
  unfold get_deployment_by_api_name, objects_get.
  destruct n as [n|]; [|reflexivity].
  by destruct (filter _ _) as [|d [|d' rows]].
Qed.

(** X12: when the deployment exists and is active but
    [KeyHelper.validate_api_key] raises, [validate_and_process] raises that
    very exception after the one key check, and the handler is not run. *)
Theorem validate_rejected_key_stops d s1 e :
  get_deployment_by_api_name name w = (w, Returned (Some d)) ->
  is_active d = true ->
  validate_api_key api_key d (ext w) = (s1, Raised e) ->
  validate_and_process func api_key kw_api_name data_api_name w
  = (mkWorld s1 (calls w ++ [CallValidateApiKey api_key d]), Raised e).
Proof.
  intros Hget Hactive Hkey.
  unfold validate_and_process, bind. rewrite Hget.
  unfold validate_api, call. rewrite Hactive. cbn [negb].
  by rewrite Hkey.
Qed.

(** X13: when the deployment exists, is active and the key check returns,
    [validate_and_process] is the handler run on that deployment, in the
    world the key check left: one key check, then the handler. *)
Theorem validate_accepted_runs_handler d s1 :
  get_deployment_by_api_name name w = (w, Returned (Some d)) ->
  is_active d = true ->
  validate_api_key api_key d (ext w) = (s1, Returned tt) ->
  validate_and_process func api_key kw_api_name data_api_name w
  = func (Some d) (mkWorld s1 (calls w ++ [CallValidateApiKey api_key d])).
Proof.
  intros Hget Hactive Hkey.
  unfold validate_and_process, bind. rewrite Hget.
  unfold validate_api, call. rewrite Hactive. cbn [negb].
  by rewrite Hkey.
Qed.

(** X14: whatever the handler is, a value returned by
    [validate_and_process] is a value the handler returned for a deployment
    that was found under the requested name, is active, and whose key
    check returned; in every other case nothing is returned. *)
Theorem validate_guards_handler w' a :
  validate_and_process func api_key kw_api_name data_api_name w
    = (w', Returned a) ->
  exists d s1,
    get_deployment_by_api_name name w = (w, Returned (Some d))
    /\ is_active d = true
    /\ validate_api_key api_key d (ext w) = (s1, Returned tt)
    /\ func (Some d) (mkWorld s1 (calls w ++ [CallValidateApiKey api_key d]))
       = (w', Returned a).
Proof.
  unfold validate_and_process, bind.
  pose proof (get_deployment_reads_only name) as Hsame.
  destruct (get_deployment_by_api_name name w) as [w0 [[d|]|e]];
    cbn [fst] in Hsame; subst w0; [|done..].
  unfold validate_api, call.
  destruct (is_active d) eqn:Hactive; cbn [negb]; [|done].
  destruct (validate_api_key api_key d (ext w)) as [s1 [[]|e]] eqn:Hkey;
    [|done].
  intros Hfunc. by exists d, s1.
Qed.

End ValidateAndProcess.

(** X15: [validate_parameters] raises [InvalidAPIRequest] exactly when the
    name is missing or empty both in the keyword arguments and in the
    request data; when it returns, the name [validate_and_process] looks
    up is the first non-empty one of the two. *)
Theorem validate_parameters_needs_a_name {W : Type}
    (kw_api_name data_api_name : option string) (w : W) :
  (truthy kw_api_name = false /\ truthy data_api_name = false
   /\ DeploymentKeys.validate_parameters kw_api_name data_api_name w
      = (w, Raised (mkExn (OtherException "InvalidAPIRequest")
                      "Missing params api_name")))
  \/ (exists c n,
        py_or kw_api_name data_api_name = Some (String c n)
        /\ (kw_api_name = Some (String c n)
            \/ truthy kw_api_name = false
               /\ data_api_name = Some (String c n))
        /\ DeploymentKeys.validate_parameters kw_api_name data_api_name w
           = (w, Returned tt)).
Proof.
  unfold DeploymentKeys.validate_parameters, py_or.
  destruct kw_api_name as [[|c n]|]; cbn [truthy].
  - destruct data_api_name as [[|c n]|]; cbn [truthy negb];
      [by left| |by left].
    right. exists c, n. split; [done|]. split; [|done]. by right.
  - right. exists c, n. split; [done|]. split; [|done]. by left.
  - destruct data_api_name as [[|c n]|]; cbn [truthy negb];
      [by left| |by left].
    right. exists c, n. split; [done|]. split; [|done]. by right.
Qed.

(** ** Creating an API key *)

Section CreateApiKey.
Import DeploymentHelper DeploymentKeys.
Context {S : Type} `{KeyStore S}.

(** X16: [create_api_key] returns a key only when
    [KeyHelper.create_api_key] returned it, and then the deployment is not
    deleted.  When key creation raises, the deployment is deleted and
    [ApiKeyCreateException] is raised in place of the original error; when
    the deletion raises too, it is the deletion's exception that leaves. *)
Theorem create_api_key_outcomes (api_deployment : APIDeployment)
    (w : World S) :
  (exists s1 key,
     key_helper_create_api_key api_deployment (ext w) = (s1, Returned key)
     /\ create_api_key api_deployment w
        = (mkWorld s1 (calls w ++ [CallCreateApiKey api_deployment]),
           Returned key))
  \/ (exists s1 error s2 o,
        key_helper_create_api_key api_deployment (ext w)
          = (s1, Raised error)
        /\ delete api_deployment s1 = (s2, o)
        /\ create_api_key api_deployment w
           = (mkWorld s2 (calls w ++ [CallCreateApiKey api_deployment;
                                      CallDelete api_deployment]),
              match o with
              | Returned _ =>
                  Raised (mkExn (OtherException "ApiKeyCreateException")
                            ApiKeyCreateException_detail)
              | Raised e => Raised e
              end)).
Proof.
  unfold create_api_key, try_except, bind, call, raise.
  destruct (key_helper_create_api_key api_deployment (ext w))
    as [s1 [key|error]] eqn:Hcreate.
  - left. by exists s1, key.
  - right. cbn [ext calls].
    destruct (delete api_deployment s1) as [s2 o] eqn:Hdelete.
    exists s1, error, s2, o. split; [done|]. split; [done|].
    rewrite <- (assoc_L (++)). by destruct o.
Qed.

End CreateApiKey.

(** ** The calls of a dispatch *)

Section DispatchCalls.
Import DeploymentHelper Spec.
Context {S : Type} `{Backend S}.
Variables (org : string) (api : APIDeployment) (files : list UploadedFile).
Variables (timeout : Z) (include_metadata : bool) (rnd : N).
Variable w : World S.

Local Abbreviation wf := (workflow_id (workflow api)).
Local Abbreviation eid := (generated_execution_id rnd).
Local Abbreviation run :=
  (execute_workflow org api files timeout include_metadata rnd w).
Local Abbreviation staged := (CallAddInputFiles wf eid files).
Local Abbreviation engine hashes :=
  (CallExecuteAsync wf (id api) hashes timeout eid).
Local Abbreviation deleted := (CallDeleteStorageDir wf eid).


End DispatchCalls.

(** ** The status endpoint of any execution id *)

Section StatusEndpoint.
Import DeploymentHelper EnvText.

Lemma HEX_safe d : (d < 16)%N -> Urllib.always_safe (Urllib.HEX d) = true.
Proof.
  intros Hd. destruct d as [|p]; [reflexivity|].
  do 4 (destruct p as [p|p|]; try reflexivity; try lia).
Qed.

Lemma high_nibble c : (N.shiftr (N_of_ascii c) 4 < 16)%N.
Proof.
  rewrite N.shiftr_div_pow2. apply N.Div0.div_lt_upper_bound.
  apply (N_ascii_bounded c).
Qed.

Lemma low_nibble c : (N.land (N_of_ascii c) 15 < 16)%N.
Proof.
  change 15%N with (N.ones 4). rewrite N.land_ones.
  apply N.mod_lt. discriminate.
Qed.

Lemma quote_plus_characters (s : string) c :
  contains c (Urllib.quote_plus s) = true ->
  Urllib.always_safe c = true \/ c = "+"%char \/ c = "%"%char.
Proof.
  induction s as [|x s IH]; [done|]. cbn [Urllib.quote_plus].
  destruct (Urllib.always_safe x) eqn:Hx; cbn [contains].
  { intros [Hc|Hc]%orb_true_iff; [|by apply IH].
    apply Ascii.eqb_eq in Hc as <-. by left. }
  destruct (N_of_ascii x =? 32)%N; cbn [contains].
  { intros [Hc|Hc]%orb_true_iff; [|by apply IH].
    apply Ascii.eqb_eq in Hc as <-. right. by left. }
  intros [Hc|[Hc|[Hc|Hc]%orb_true_iff]%orb_true_iff]%orb_true_iff;
    [| | |by apply IH]; apply Ascii.eqb_eq in Hc as <-.
  - by do 2 right.
  - left. apply HEX_safe, high_nibble.
  - left. apply HEX_safe, low_nibble.
Qed.

(** Quoting loses nothing: what [quote_plus] wrote reads back. *)
Lemma unquote_quote_character c (s : string) :
  Unquote.unquote_plus (Urllib.quote_plus (String c s))
  = String c (Unquote.unquote_plus (Urllib.quote_plus s)).
Proof. destruct c as [[] [] [] [] [] [] [] []]; reflexivity. Qed.

Lemma unquote_quote (s : string) :
  Unquote.unquote_plus (Urllib.quote_plus s) = s.
Proof.
  induction s as [|c s IH]; [reflexivity|].
  by rewrite unquote_quote_character, IH.
Qed.

(** X18: for every execution id, [construct_status_endpoint] is the
    endpoint after a slash, [?execution_id=] and a value made only of
    unreserved characters, [+] and [%], so that no character of the id can
    end the parameter or start another; and two different ids never give
    the same endpoint. *)
Theorem status_endpoint_quotes_execution_id (endpoint id1 id2 : string) :
  (exists value,
     construct_status_endpoint endpoint id1
       = "/" ++ endpoint ++ "?execution_id=" ++ value
     /\ forall c, contains c value = true ->
          Urllib.always_safe c = true \/ c = "+"%char \/ c = "%"%char)
  /\ (construct_status_endpoint endpoint id1
        = construct_status_endpoint endpoint id2 -> id1 = id2).
Proof.
  split.
  - exists (Urllib.quote_plus id1). split; [reflexivity|].
    apply quote_plus_characters.
  - unfold construct_status_endpoint, Urllib.urlencode. intros Heq.
    do 5 apply (inj (String.append _)) in Heq.
    by rewrite <- (unquote_quote id1), <- (unquote_quote id2), Heq.
Qed.

End StatusEndpoint.

(** ** The deployment checks on the scripted store *)

Section ValidateScripted.
Import DeploymentHelper.

(** X12: a wrong key for the invoice deployment. *)
Lemma validate_rejected_key_witness :
  validate_and_process (S := Sim.Store) (fun _ => ret tt) "wrong"
    (Some "invoice-extractor") None Sim.all_well
  = (mkWorld (ext Sim.all_well)
       [CallValidateApiKey "wrong" Sim.invoice_api],
     Raised (mkExn (OtherException "UnauthorizedKey") "Unauthorized")).
Proof.
  exact (validate_rejected_key_stops (fun _ => ret tt) "wrong"
           (Some "invoice-extractor") None Sim.all_well Sim.invoice_api
           (ext Sim.all_well) _ eq_refl eq_refl eq_refl).
Defined.

(** X13: the right key; the handler is given the deployment. *)
Lemma validate_accepted_witness :
  validate_and_process (S := Sim.Store)
    (fun d => ret (option_map api_endpoint d)) "secret"
    (Some "invoice-extractor") None Sim.all_well
  = (mkWorld (ext Sim.all_well)
       [CallValidateApiKey "secret" Sim.invoice_api],
     Returned (Some "deployment/api/acme/invoice-extractor/")).
Proof.
  exact (validate_accepted_runs_handler
           (fun d => ret (option_map api_endpoint d)) "secret"
           (Some "invoice-extractor") None Sim.all_well Sim.invoice_api
           (ext Sim.all_well) eq_refl eq_refl eq_refl).
Defined.

(** X14: what the handler returned came through the three checks. *)
Lemma validate_guards_handler_witness :
  exists d s1,
    get_deployment_by_api_name (S := Sim.Store)
      (py_or (Some "invoice-extractor") None) Sim.all_well
      = (Sim.all_well, Returned (Some d))
    /\ is_active d = true
    /\ validate_api_key "secret" d (ext Sim.all_well) = (s1, Returned tt).
Proof.
  destruct (validate_guards_handler (S := Sim.Store)
              (fun d => ret (option_map api_endpoint d)) "secret"
              (Some "invoice-extractor") None Sim.all_well
              (mkWorld (ext Sim.all_well)
                 [CallValidateApiKey "secret" Sim.invoice_api])
              (Some "deployment/api/acme/invoice-extractor/"))
    as (d & s1 & Hget & Hactive & Hkey & _); [reflexivity|].
  by exists d, s1.
Defined.

End ValidateScripted.

(** ** The ways through [user_login] *)

Section LoginPaths.
Import AuthenticationService Spec LoginText.
Context {S : Type} `{Django S}.

Local Abbreviation World := (AuthenticationService.World S).
Local Abbreviation calls := AuthenticationService.calls.
Local Abbreviation ext := AuthenticationService.ext.
Local Abbreviation mkWorld := AuthenticationService.mkWorld.
Local Abbreviation error_page message :=
  (Rendered TEMPLATE [(ERROR_PLACE_HOLDER, message)]).

Lemma strong_password_passes (password : ustr) :
  ~ weak_password password ->
  _validate_password_complexity (Some password) = Returned tt.
Proof.
  intros Hstrong.
  destruct (_validate_password_complexity (Some password)) as [[]|e]
    eqn:Hcheck; [reflexivity|].
  exfalso. apply Hstrong, weak_password_raises.
  unfold _validate_password_complexity in *.
  repeat match type of Hcheck with
         | (if ?b then _ else _) = _ => destruct b
         end;
    try discriminate; injection Hcheck as <-; by eexists.
Qed.

(** What is left of [user_login] once the rate limit, the method and the
    form have let the request through. *)
Lemma user_login_checked (request : Request) (w : World)
    (password : ustr) :
  method request <> "GET" ->
  attempts (_get_client_ip request) w < 5 ->
  is_valid (LoginRequestSerializer (POST request)) = true ->
  validated_data (LoginRequestSerializer (POST request)) !! "password"
    = Some password ->
  ~ weak_password password ->
  user_login request w
  = match authenticate_and_login request
            (validated_data (LoginRequestSerializer (POST request))
               !! "username")
            (Some password) w with
    | (w1, Returned true) =>
        ((_reset_login_attempts (_get_client_ip request) w1).1,
         Returned (Redirected WEB_APP_ORIGIN_URL))
    | (w1, Returned false) =>
        ((_increment_login_attempt (_get_client_ip request) w1).1,
         Returned (error_page USER_LOGIN_ERROR))
    | (w1, Raised e) => (w1, Raised e)
    end.
Proof.
  intros Hmethod Hfree Hvalid Hpassword Hstrong.
  unfold user_login, bind, _is_rate_limited. unfold attempts in Hfree.
  rewrite (proj2 (Nat.leb_gt _ _) Hfree).
  destruct (decide (method request = "GET")) as [Hget|_]; [done|].
  unfold try_except_ValueError, validate_login_credentials, lift, ret.
  rewrite Hvalid. cbn [negb]. rewrite Hpassword.
  rewrite (strong_password_passes password Hstrong).
  destruct (authenticate_and_login request _ (Some password) w)
    as [w1 [[|]|e]]; [|reflexivity..].
  unfold _reset_login_attempts.
  by destruct (login_attempts w1 !! _get_client_ip request).
Qed.

Lemma authenticate_and_login_attempts request username password
    (w : World) :
  login_attempts (authenticate_and_login request username password w).1
  = login_attempts w.
Proof.
  unfold authenticate_and_login, bind, AuthenticationService.call, ret, raise.
  destruct (authenticate request username password (ext w))
    as [s1 [[user|]|e]]; cbn [ext login_attempts calls]; [| |reflexivity].
  - destruct (is_superuser user); [reflexivity|].
    cbn [ext login_attempts calls].
    destruct (login request user s1) as [s2 [[]|e]]; reflexivity.
  - destruct (set_default_user s1) as [s2 [|]]; [|reflexivity].
    cbn [ext login_attempts calls].
    destruct (authenticate request username password s2)
      as [s3 [[user|]|e]]; cbn [ext login_attempts calls];
      [|reflexivity..].
    destruct (login request user s3) as [s4 [[]|e]]; reflexivity.
Qed.

(** X19: a POST from a client that is not rate limited, accepted by the
    serializer, with a password that passes the complexity check, for
    which [authenticate] returns a user who is not a superuser and
    [login] returns: the answer is the redirect to the web application and
    the client's counter is gone, so its failed attempts count from zero
    again. *)
Theorem successful_login_resets_counter (request : Request) (w : World)
    (password : ustr) s1 user s2 :
  let username :=
    validated_data (LoginRequestSerializer (POST request)) !! "username" in
  method request <> "GET" ->
  attempts (_get_client_ip request) w < 5 ->
  is_valid (LoginRequestSerializer (POST request)) = true ->
  validated_data (LoginRequestSerializer (POST request)) !! "password"
    = Some password ->
  ~ weak_password password ->
  authenticate request username (Some password) (ext w)
    = (s1, Returned (Some user)) ->
  is_superuser user = false ->
  login request user s1 = (s2, Returned tt) ->
  user_login request w
  = (mkWorld s2 (delete (_get_client_ip request) (login_attempts w))
       (calls w ++ [CallAuthenticate request username (Some password);
                    CallLogin request user]),
     Returned (Redirected WEB_APP_ORIGIN_URL))
  /\ attempts (_get_client_ip request) (user_login request w).1 = 0.
Proof.
  intros username Hmethod Hfree Hvalid Hpassword Hstrong Hauth Hsuper Hlogin.
  assert (user_login request w
          = (mkWorld s2 (delete (_get_client_ip request) (login_attempts w))
               (calls w ++ [CallAuthenticate request username (Some password);
                            CallLogin request user]),
             Returned (Redirected WEB_APP_ORIGIN_URL))) as Hrun.
  { rewrite (user_login_checked request w password) by done.
    unfold authenticate_and_login, bind, AuthenticationService.call, ret.
    fold username. rewrite Hauth, Hsuper. cbn [ext login_attempts calls].
    rewrite Hlogin. unfold _reset_login_attempts.
    cbn [ext login_attempts calls fst].
    rewrite <- (assoc_L (++)).
    destruct (login_attempts w !! _get_client_ip request) eqn:Hcount;
      cbn [fst]; [reflexivity|].
    by rewrite delete_id. }
  split; [exact Hrun|]. rewrite Hrun. unfold attempts.
  cbn [fst login_attempts]. by rewrite lookup_delete_eq.
Qed.

(** X20: for such a POST, when [authenticate_and_login] returns [False]
    (an unknown user without a default user, a wrong password, or a
    superuser with the right one), the answer is the error page with
    [USER_LOGIN_ERROR] and the client's counter goes up by one. *)
Theorem failed_authentication_is_counted (request : Request) (w w1 : World)
    (password : ustr) :
  let username :=
    validated_data (LoginRequestSerializer (POST request)) !! "username" in
  method request <> "GET" ->
  attempts (_get_client_ip request) w < 5 ->
  is_valid (LoginRequestSerializer (POST request)) = true ->
  validated_data (LoginRequestSerializer (POST request)) !! "password"
    = Some password ->
  ~ weak_password password ->
  authenticate_and_login request username (Some password) w
    = (w1, Returned false) ->
  exists w',
    user_login request w = (w', Returned (error_page USER_LOGIN_ERROR))
    /\ attempts (_get_client_ip request) w'
       = attempts (_get_client_ip request) w + 1
    /\ ext w' = ext w1 /\ calls w' = calls w1.
Proof.
  intros username Hmethod Hfree Hvalid Hpassword Hstrong Hrefused.
  rewrite (user_login_checked request w password) by done.
  fold username. rewrite Hrefused. eexists. split; [reflexivity|].
  split; [|done]. unfold attempts, _increment_login_attempt.
  cbn [fst login_attempts]. rewrite lookup_insert_eq. cbn [default].
  pose proof (authenticate_and_login_attempts request username
                (Some password) w) as Hsame.
  rewrite Hrefused in Hsame. cbn [fst] in Hsame. by rewrite Hsame.
Qed.

(** X21: for such a POST, an exception raised inside
    [authenticate_and_login] leaves [user_login] as it is, and the attempt
    is neither counted nor does it reset the counter. *)
Theorem login_exception_is_not_counted (request : Request) (w w1 : World)
    (password : ustr) e :
  let username :=
    validated_data (LoginRequestSerializer (POST request)) !! "username" in
  method request <> "GET" ->
  attempts (_get_client_ip request) w < 5 ->
  is_valid (LoginRequestSerializer (POST request)) = true ->
  validated_data (LoginRequestSerializer (POST request)) !! "password"
    = Some password ->
  ~ weak_password password ->
  authenticate_and_login request username (Some password) w
    = (w1, Raised e) ->
  user_login request w = (w1, Raised e)
  /\ login_attempts w1 = login_attempts w.
Proof.
  intros username Hmethod Hfree Hvalid Hpassword Hstrong Hraised.
  rewrite (user_login_checked request w password) by done.
  fold username. rewrite Hraised. split; [reflexivity|].
  pose proof (authenticate_and_login_attempts request username
                (Some password) w) as Hsame.
  by rewrite Hraised in Hsame.
Qed.

(** X22: [authenticate_and_login] returns [True] only on its first path:
    the first [authenticate] call returned a user who is not a superuser
    and that user was logged in.  The path through the default user never
    returns [True]. *)
Theorem authenticate_and_login_true_only_first request username password
    (w w' : World) :
  authenticate_and_login request username password w
    = (w', Returned true) ->
  exists s1 user s2,
    authenticate request username password (ext w)
      = (s1, Returned (Some user))
    /\ is_superuser user = false
    /\ login request user s1 = (s2, Returned tt)
    /\ w' = mkWorld s2 (login_attempts w)
              (calls w ++ [CallAuthenticate request username password;
                           CallLogin request user]).
Proof.
  unfold authenticate_and_login, bind, AuthenticationService.call, ret, raise.
  destruct (authenticate request username password (ext w))
    as [s1 [[user|]|e]] eqn:Hauth; cbn [ext login_attempts calls];
    [| |intros [=]].
  - destruct (is_superuser user) eqn:Hsuper; [intros [=]|].
    cbn [ext login_attempts calls].
    destruct (login request user s1) as [s2 [[]|e]] eqn:Hlogin;
      [|intros [=]].
    intros [= <-]. exists s1, user, s2. repeat (split; [done|]).
    by rewrite <- (assoc_L (++)).
  - destruct (set_default_user s1) as [s2 [|]]; [|intros [=]].
    cbn [ext login_attempts calls].
    destruct (authenticate request username password s2)
      as [s3 [[user|]|e]]; cbn [ext login_attempts calls];
      [|intros [=]..].
    destruct (login request user s3) as [s4 [[]|e]]; intros [=].
Qed.

(** X23: on the path through the default user (the first [authenticate]
    finds nobody, [_set_default_user] returns [True], the second
    [authenticate] returns a user) that user is logged in without the
    superuser test of the first path, and then the function raises
    [NameError] in place of returning. *)
Theorem default_user_path_logs_in_then_raises request username password
    (w : World) s1 s2 s3 user s4 :
  authenticate request username password (ext w) = (s1, Returned None) ->
  set_default_user s1 = (s2, true) ->
  authenticate request username password s2 = (s3, Returned (Some user)) ->
  login request user s3 = (s4, Returned tt) ->
  authenticate_and_login request username password w
  = (mkWorld s4 (login_attempts w)
       (calls w ++ [CallAuthenticate request username password;
                    CallSetDefaultUser;
                    CallAuthenticate request username password;
                    CallLogin request user]),
     Raised (mkExn NameError "name 'UserSessionUtils' is not defined")).
Proof.
  intros Hfirst Hdefault Hsecond Hlogin.
  unfold authenticate_and_login, bind, AuthenticationService.call, ret, raise.
  rewrite Hfirst. cbn [ext login_attempts calls]. rewrite Hdefault.
  cbn [ext login_attempts calls]. rewrite Hsecond.
  cbn [ext login_attempts calls]. rewrite Hlogin.
  by rewrite <- !(assoc_L (++)).
Qed.

End LoginPaths.

(** ** The counters of the rate limiter *)

Section LoginCounters.
Import AuthenticationService Spec LoginText.
Context {S : Type} `{Django S}.

Local Abbreviation World := (AuthenticationService.World S).

Lemma within_limit_same (w w' : World) :
  login_attempts w' = login_attempts w -> within_limit w -> within_limit w'.
Proof. intros Hsame Hw ip. rewrite Hsame. apply Hw. Qed.

Lemma within_limit_increment ip (w : World) :
  within_limit w -> attempts ip w < 5 ->
  within_limit (_increment_login_attempt ip w).1.
Proof.
  intros Hw Hfree other. cbn [_increment_login_attempt fst login_attempts].
  destruct (decide (ip = other)) as [<-|Hother].
  - rewrite lookup_insert_eq. simpl. unfold attempts in Hfree. lia.
  - rewrite lookup_insert_ne by done. apply Hw.
Qed.

Lemma within_limit_reset ip (w : World) :
  within_limit w -> within_limit (_reset_login_attempts ip w).1.
Proof.
  intros Hw other. unfold _reset_login_attempts.
  destruct (login_attempts w !! ip); cbn [fst login_attempts]; [|apply Hw].
  destruct (decide (ip = other)) as [<-|Hother].
  - rewrite lookup_delete_eq. simpl. lia.
  - rewrite lookup_delete_ne by done. apply Hw.
Qed.

Lemma reset_returns ip (w : World) :
  _reset_login_attempts ip w
  = ((_reset_login_attempts ip w).1, Returned tt).
Proof.
  unfold _reset_login_attempts. by destruct (login_attempts w !! ip).
Qed.

Lemma user_login_within_limit (request : Request) (w : World) :
  within_limit w -> within_limit (user_login request w).1.
Proof.
  intros Hw. unfold user_login, bind, _is_rate_limited.
  destruct (5 <=? default 0 (login_attempts w !! _get_client_ip request))%nat
    eqn:Hlimited; [exact Hw|].
  apply Nat.leb_gt in Hlimited.
  destruct (decide (method request = "GET")); [exact Hw|].
  unfold try_except_ValueError, bind, validate_login_credentials, lift,
    ret, raise.
  destruct (is_valid (LoginRequestSerializer (POST request))); cbn [negb].
  - destruct (_validate_password_complexity _) as [[]|e].
    + pose proof (authenticate_and_login_attempts request
                    (validated_data (LoginRequestSerializer (POST request))
                       !! "username")
                    (validated_data (LoginRequestSerializer (POST request))
                       !! "password") w) as Hsame.
      destruct (authenticate_and_login _ _ _ w) as [w1 [[|]|e]];
        cbn [fst] in Hsame.
      * rewrite reset_returns.
        change (within_limit
                  (_reset_login_attempts (_get_client_ip request) w1).1).
        by apply within_limit_reset, (within_limit_same w).
      * change (within_limit
                  (_increment_login_attempt (_get_client_ip request) w1).1).
        apply within_limit_increment.
        { by apply (within_limit_same w). }
        unfold attempts. by rewrite Hsame.
      * by apply (within_limit_same w).
    + destruct (exn_class e); try exact Hw.
      change (within_limit
                (_increment_login_attempt (_get_client_ip request) w).1).
      by apply within_limit_increment.
  - destruct (first_errors _) as [[|message ?]|]; try exact Hw.
    change (within_limit
              (_increment_login_attempt (_get_client_ip request) w).1).
    by apply within_limit_increment.
Qed.

(** X24: no counter ever passes the limit: if every counter is at most 5,
    it still is after any sequence of requests; in particular this holds
    from the start of the instance, where nothing is recorded. *)
Theorem counters_stay_within_limit (requests : list Request) (w : World) :
  within_limit w -> within_limit (serve requests w).1.
Proof.
  revert w. induction requests as [|request rest IH]; intros w Hw;
    [exact Hw|].
  cbn [serve]. pose proof (user_login_within_limit request w Hw) as Hstep.
  destruct (user_login request w) as [w1 response].
  specialize (IH w1 Hstep). by destruct (serve rest w1).
Qed.

Lemma letters_length n : String.length (letters n) = n.
Proof. induction n as [|n IH]; [reflexivity|]. simpl. by rewrite IH. Qed.

Lemma letters_without_comma n : split_comma_first (letters n) = letters n.
Proof. induction n as [|n IH]; [reflexivity|]. simpl. by rewrite IH. Qed.

Lemma longest_bounds (keys : list (option string)) address :
  Some address ∈ keys -> String.length address <= longest keys.
Proof.
  induction keys as [|[key|] keys IH]; intros Hin.
  - by apply elem_of_nil in Hin.
  - cbn [longest]. apply elem_of_cons in Hin as [[= ->]|Hin]; [lia|].
    specialize (IH Hin). lia.
  - cbn [longest]. apply elem_of_cons in Hin as [[=]|Hin]. by apply IH.
Qed.

(** X25: the counter consulted is the one of the first entry of
    [X-Forwarded-For] whenever that header is not empty, whatever
    [REMOTE_ADDR] is; and whatever has been recorded so far, there is a
    header value under which the same request is not rate limited. *)
Theorem forwarded_header_chooses_counter (request : Request) (w : World) :
  (forall header,
     header <> EmptyString ->
     _get_client_ip (forwarded header request)
     = Some (split_comma_first header))
  /\ exists header,
       _get_client_ip (forwarded header request) = Some header
       /\ attempts (Some header) w = 0
       /\ _is_rate_limited (_get_client_ip (forwarded header request)) w
          = (w, Returned false).
Proof.
  split.
  { intros [|c header] Hne; [done|reflexivity]. }
  set (keys := (map_to_list (login_attempts w)).*1).
  set (header := letters (Datatypes.S (longest keys))).
  assert (_get_client_ip (forwarded header request) = Some header) as Hip.
  { unfold _get_client_ip, header. cbn [forwarded HTTP_X_FORWARDED_FOR].
    cbn [letters truthy option_map]. f_equal.
    apply (letters_without_comma (Datatypes.S _)). }
  assert (login_attempts w !! Some header = None) as Hnone.
  { destruct (login_attempts w !! Some header) as [count|] eqn:Hcount;
      [|reflexivity].
    apply elem_of_map_to_list in Hcount.
    assert (Some header ∈ keys) as Hin.
    { apply list_elem_of_fmap. by exists (Some header, count). }
    apply longest_bounds in Hin. unfold header in Hin.
    rewrite letters_length in Hin. lia. }
  exists header. split; [exact Hip|].
  split; [unfold attempts; by rewrite Hnone|].
  unfold _is_rate_limited. by rewrite Hip, Hnone.
Qed.

End LoginCounters.

(** ** The login paths on the scripted accounts *)

Section LoginScripted.
Import AuthenticationService Spec LoginText SimDefault.

Lemma strong_password_is_strong : ~ weak_password Sim.strong_password.
Proof.
  intros [message Hcheck]%weak_password_raises. discriminate Hcheck.
Qed.

(** X19: Alice logs in from 10.0.0.1 after two failures from there. *)
Lemma successful_login_witness :
  let request := Sim.post "10.0.0.1" Sim.alice_name Sim.strong_password in
  let w :=
    (serve (replicate 2 (Sim.post "10.0.0.1" Sim.alice_name
                           Sim.short_password)) Sim.fresh).1 in
  attempts (Some "10.0.0.1") w = 2
  /\ (user_login request w).2
     = Returned (Redirected "http://frontend.example")
  /\ attempts (Some "10.0.0.1") (user_login request w).1 = 0.
Proof.
  intros request w.
  edestruct (successful_login_resets_counter request w Sim.strong_password)
    as [Hrun Hzero];
    [done | vm_compute; lia | reflexivity | reflexivity
    | exact strong_password_is_strong
    | reflexivity | reflexivity | reflexivity |].
  split; [reflexivity|]. split; [by rewrite Hrun|exact Hzero].
Defined.

(** X20: root's right credentials count as a failed attempt. *)
Lemma failed_authentication_witness :
  let request := Sim.post "10.0.0.2" Sim.root_name Sim.strong_password in
  exists w',
    user_login request Sim.fresh
    = (w', Returned (Rendered "login.html"
                       [("error_message",
                         "Invalid username or password.")]))
    /\ attempts (Some "10.0.0.2") w' = 1.
Proof.
  intros request.
  edestruct (failed_authentication_is_counted request Sim.fresh)
    as (w' & Hrun & Hcount & _);
    [done | vm_compute; lia | reflexivity | reflexivity
    | exact strong_password_is_strong | reflexivity |].
  exists w'. split; [exact Hrun|].
  etransitivity; [exact Hcount|reflexivity].
Defined.

(** X23: the first request with the default credentials installs the
    default user and logs it in, a superuser, and leaves with
    [NameError]. *)
Lemma default_user_path_witness :
  let request := Sim.post "10.0.0.3" Sim.root_name Sim.strong_password in
  (authenticate_and_login request (Some Sim.root_name)
     (Some Sim.strong_password) SimDefault.fresh).2
  = Raised (mkExn NameError "name 'UserSessionUtils' is not defined")
  /\ SimDefault.session
       (AuthenticationService.ext
          (authenticate_and_login request (Some Sim.root_name)
             (Some Sim.strong_password) SimDefault.fresh).1)
     = [Sim.root].
Proof.
  intros request.
  erewrite (default_user_path_logs_in_then_raises request
              (Some Sim.root_name) (Some Sim.strong_password)
              SimDefault.fresh) by reflexivity.
  split; reflexivity.
Defined.

(** X21: the same request through [user_login]; the attempt is not
    counted. *)
Lemma login_exception_witness :
  let request := Sim.post "10.0.0.3" Sim.root_name Sim.strong_password in
  (user_login request SimDefault.fresh).2
  = Raised (mkExn NameError "name 'UserSessionUtils' is not defined")
  /\ login_attempts (user_login request SimDefault.fresh).1 = ∅.
Proof.
  intros request.
  edestruct (login_exception_is_not_counted request SimDefault.fresh)
    as [Hrun Hsame];
    [done | vm_compute; lia | reflexivity | reflexivity
    | exact strong_password_is_strong | reflexivity |].
  rewrite Hrun. split; [reflexivity|exact Hsame].
Defined.

(** X22: Alice's login is the first path. *)
Lemma authenticate_and_login_true_witness :
  let request := Sim.post "10.0.0.1" Sim.alice_name Sim.strong_password in
  exists s1 user s2,
    authenticate request (Some Sim.alice_name) (Some Sim.strong_password)
      (AuthenticationService.ext Sim.fresh) = (s1, Returned (Some user))
    /\ is_superuser user = false
    /\ login request user s1 = (s2, Returned tt).
Proof.
  intros request.
  edestruct (authenticate_and_login_true_only_first request
               (Some Sim.alice_name) (Some Sim.strong_password) Sim.fresh)
    as (s1 & user & s2 & Hauth & Hsuper & Hlogin & _); [reflexivity|].
  by exists s1, user, s2.
Defined.

(** X24: from the start of the instance. *)
Lemma counters_within_limit_witness :
  within_limit
    (serve (replicate 9 (Sim.post "10.0.0.1" Sim.alice_name
                           Sim.short_password)) Sim.fresh).1.
Proof.
  apply counters_stay_within_limit. intros ip.
  cbn [Sim.fresh init login_attempts]. rewrite lookup_empty. cbn. lia.
Defined.

End LoginScripted.

(** ** The default user *)

Section DefaultUserPaths.
Import DefaultUser.
Context {S : Type} `{Accounts S}.

Local Abbreviation USERNAME := "DEFAULT_AUTH_USERNAME".
Local Abbreviation PASSWORD := "DEFAULT_AUTH_PASSWORD".
Local Abbreviation after s w l :=
  (mkWorld s (environ w) (urandom w) (drawn w) (List.app (calls w) l)).

Ltac run_calls :=
  repeat first
    [ progress cbn [ext environ urandom drawn calls]
    | match goal with
      | Heq : ?op = (_, _) |- context [?op] => rewrite Heq
      end ];
  rewrite <- ?(assoc_L (++)); cbn [List.app].

Lemma organization_user_is_admin (w : World S) s1 first others :
  get_members_by_role ADMIN (ext w) = (s1, Returned (first :: others)) ->
  _get_or_create_organization_user w
  = (after s1 w [CallGetMembersByRole ADMIN], Returned (user first)).
Proof.
  intros Hadmins.
  unfold _get_or_create_organization_user, _get_admin_user, bind, call, ret.
  by run_calls.
Qed.

Lemma organization_user_is_promoted (w : World S) s1 s2 first others s3 :
  get_members_by_role ADMIN (ext w) = (s1, Returned []) ->
  get_members s1 = (s2, Returned (first :: others)) ->
  set_member_role (member_id first) ADMIN s2 = (s3, Returned tt) ->
  _get_or_create_organization_user w
  = (after s3 w [CallGetMembersByRole ADMIN; CallGetMembers;
                 CallSetMemberRole (member_id first) ADMIN],
     Returned (user first)).
Proof.
  intros Hadmins Hmembers Hrole.
  unfold _get_or_create_organization_user, _get_admin_user,
    _promote_first_member_to_admin, bind, call, ret.
  by run_calls.
Qed.

(** X26: the user of the organization is the first administrator when
    there is one, and then nobody is promoted and no user is created;
    when there is none, the first member is made administrator and it is
    that member's user. *)
Theorem organization_user_is_first_admin_or_promoted (w : World S) :
  (forall s1 first others,
     get_members_by_role ADMIN (ext w) = (s1, Returned (first :: others)) ->
     _get_or_create_organization_user w
     = (after s1 w [CallGetMembersByRole ADMIN], Returned (user first)))
  /\ (forall s1 s2 first others s3,
        get_members_by_role ADMIN (ext w) = (s1, Returned []) ->
        get_members s1 = (s2, Returned (first :: others)) ->
        set_member_role (member_id first) ADMIN s2 = (s3, Returned tt) ->
        _get_or_create_organization_user w
        = (after s3 w [CallGetMembersByRole ADMIN; CallGetMembers;
                       CallSetMemberRole (member_id first) ADMIN],
           Returned (user first))).
Proof.
  split.
  - apply organization_user_is_admin.
  - apply organization_user_is_promoted.
Qed.

(** X27: with an organization that has an administrator, and with both
    [DEFAULT_AUTH_USERNAME] and [DEFAULT_AUTH_PASSWORD] set and not empty,
    [_set_default_user] renames the first administrator's own account to
    the default username, gives it the hash of the default password and
    saves it; no random credentials are drawn. *)
Theorem default_credentials_overwrite_admin (w : World S)
    s1 s2 org s3 first others default_username default_password
    s4 hashed s5 :
  set_organization_identifier ORGANIZATION_NAME (ext w)
    = (s1, Returned tt) ->
  get_organization s1 = (s2, Returned (Some org)) ->
  get_members_by_role ADMIN s2 = (s3, Returned (first :: others)) ->
  environ w !! USERNAME = Some default_username ->
  environ w !! PASSWORD = Some default_password ->
  default_username <> EmptyString -> default_password <> EmptyString ->
  make_password default_password s3 = (s4, Returned hashed) ->
  save (with_password hashed (with_username default_username (user first)))
       s4 = (s5, Returned tt) ->
  _set_default_user w
  = (after s5 w
       [CallSetOrganizationIdentifier ORGANIZATION_NAME;
        CallGetOrganization;
        CallGetMembersByRole ADMIN;
        CallMakePassword default_password;
        CallSave (with_password hashed
                    (with_username default_username (user first)))],
     Returned true).
Proof.
  intros Hset Horg Hadmins Hu Hp Hune Hpne Hhash Hsave.
  unfold _set_default_user, try_except, bind, call, environ_get, ret.
  run_calls. cbn [_get_or_create_user].
  rewrite (organization_user_is_admin
             (after s2 w [CallSetOrganizationIdentifier ORGANIZATION_NAME;
                          CallGetOrganization]) s3 first others)
    by exact Hadmins.
  run_calls. rewrite Hu, Hp.
  destruct default_username as [|c1 u]; [done|].
  destruct default_password as [|c2 p]; [done|].
  cbn [truthy andb default]. unfold Datatypes.id. by run_calls.
Qed.

(** X28: with an organization that has an administrator whose account is
    not the mock account, and without both default credentials in the
    environment, [_set_default_user] returns [True] after the three
    lookups: the account is not changed, nothing is saved and nothing is
    drawn. *)
Theorem real_admin_is_left_alone (w : World S) s1 s2 org s3 first others :
  set_organization_identifier ORGANIZATION_NAME (ext w)
    = (s1, Returned tt) ->
  get_organization s1 = (s2, Returned (Some org)) ->
  get_members_by_role ADMIN s2 = (s3, Returned (first :: others)) ->
  truthy (environ w !! USERNAME) && truthy (environ w !! PASSWORD) = false ->
  username (user first) <> MOCK_USER ->
  email (user first) <> MOCK_USER_EMAIL ->
  _set_default_user w
  = (after s3 w
       [CallSetOrganizationIdentifier ORGANIZATION_NAME;
        CallGetOrganization;
        CallGetMembersByRole ADMIN],
     Returned true).
Proof.
  intros Hset Horg Hadmins Henv Hname Hmail.
  unfold _set_default_user, try_except, bind, call, environ_get, ret.
  run_calls. cbn [_get_or_create_user].
  rewrite (organization_user_is_admin
             (after s2 w [CallSetOrganizationIdentifier ORGANIZATION_NAME;
                          CallGetOrganization]) s3 first others)
    by exact Hadmins.
  run_calls. rewrite Henv. unfold _update_user_credentials.
  rewrite (proj2 (String.eqb_neq _ _) Hname).
  rewrite (proj2 (String.eqb_neq _ _) Hmail). cbn [orb]. by run_calls.
Qed.

End DefaultUserPaths.

(** ** The default user on the scripted accounts *)

Section DefaultUserScripted.
Import DefaultUser.

(** X26: Carol is the administrator; without one, Dave, the first
    member, is promoted. *)
Lemma organization_user_witness :
  (_get_or_create_organization_user
     (SimAccounts.world "admin" ∅)).2 = Returned SimAccounts.carol
  /\ (_get_or_create_organization_user
        (SimAccounts.world "user" ∅)).2 = Returned SimAccounts.dave
  /\ calls (_get_or_create_organization_user
              (SimAccounts.world "user" ∅)).1
     = [CallGetMembersByRole "admin"; CallGetMembers;
        CallSetMemberRole "m-8" "admin"].
Proof.
  destruct (organization_user_is_first_admin_or_promoted
              (SimAccounts.world "admin" ∅)) as [Hadmin _].
  destruct (organization_user_is_first_admin_or_promoted
              (SimAccounts.world "user" ∅)) as [_ Hpromoted].
  erewrite Hadmin by reflexivity. erewrite Hpromoted by reflexivity.
  repeat split.
Defined.

(** X27: Carol's account after a login attempt that found nobody. *)
Lemma default_credentials_witness :
  SimAccounts.saved
    (ext (_set_default_user
            (SimAccounts.world "admin" SimAccounts.default_env)).1)
  = [ {| pk := "7"; user_id := "u-7"; username := "admin";
         email := "carol@example.com";
         password := "pbkdf2$Adm1n!password" |} ].
Proof.
  erewrite (default_credentials_overwrite_admin
              (SimAccounts.world "admin" SimAccounts.default_env)).
  2-10: first [reflexivity | done].
  reflexivity.
Defined.

(** X28: the same without the defaults in the environment. *)
Lemma real_admin_witness :
  _set_default_user (SimAccounts.world "admin" ∅)
  = (mkWorld (SimAccounts.directory "admin") ∅ (fun n => N.of_nat n) 0
       [CallSetOrganizationIdentifier "mock_org"; CallGetOrganization;
        CallGetMembersByRole "admin"],
     Returned true).
Proof.
  rewrite (real_admin_is_left_alone (SimAccounts.world "admin" ∅)
             (SimAccounts.directory "admin") (SimAccounts.directory "admin")
             {| organization_id := "mock_org" |}
             (SimAccounts.directory "admin")
             {| member_id := "m-7"; user := SimAccounts.carol;
                role := "admin" |} []) by done.
  reflexivity.
Defined.

End DefaultUserScripted.
